(** * passport-github-token: the GitHub token strategy

    A shallow embedding of [src/index.js] (class [GitHubTokenStrategy]) and of
    the other revision of the same file that the repository also carries.
    JavaScript callbacks are kept as continuations; what the host sees of one
    [authenticate] call is the list of events the call produced. *)

From Stdlib Require Import String Ascii ZArith List Bool Lia.
From stdpp Require Import base option list strings gmap.
Import ListNotations.

Set Warnings "-register-all".
Local Open Scope string_scope.
Local Open Scope Z_scope.

(** ** JavaScript values *)

(** Values that [JSON.parse] can return, plus [undefined]. Objects keep their
    properties in insertion order; numbers are the integers. *)
Inductive jsval : Type :=
| VUndef
| VNull
| VBool (b : bool)
| VNum (n : Z)
| VStr (s : string)
| VArr (elems : list jsval)
| VObj (props : list (string * jsval)).

(** ToBoolean. *)
Definition truthy (v : jsval) : bool :=
  match v with
  | VUndef | VNull => false
  | VBool b => b
  | VNum n => negb (n =? 0)
  | VStr s => negb (String.eqb s "")
  | VArr _ | VObj _ => true
  end.

(** The exceptions and error objects this program creates or passes on.
    [InternalOAuthError message err] is the constructor of passport-oauth; the
    program hands it either a status code or the transport's error object. *)
Record oauth_error : Type := OAuthError {
  data : option string;
  statusCode : option Z
}.

Inductive oauth_cause : Type :=
| CauseStatus (code : option Z)
| CauseError (err : oauth_error).

Inductive js_error : Type :=
| SyntaxError
| TypeError
| InternalOAuthError (message : jsval) (oauthError : oauth_cause)
| UserError (v : jsval).

(** A computation that returns or throws. *)
Inductive result (A : Type) : Type :=
| Ok (a : A)
| Throw (e : js_error).
Arguments Ok {A} a.
Arguments Throw {A} e.

Definition bind {A B : Type} (r : result A) (k : A -> result B) : result B :=
  match r with
  | Ok a => k a
  | Throw e => Throw e
  end.

Notation "'let!' x ':=' r 'in' k" := (bind r (fun x => k))
  (at level 10, x name, r at level 100, k at level 200).

(** try { r } catch (e) { h e } *)
Definition try_catch {A : Type} (r : result A) (h : js_error -> A) : A :=
  match r with
  | Ok a => a
  | Throw e => h e
  end.

Fixpoint lookup_prop (k : string) (props : list (string * jsval)) : jsval :=
  match props with
  | [] => VUndef
  | (k', v) :: rest => if String.eqb k k' then v else lookup_prop k rest
  end.

(** [v.k] for the property names this program reads off parsed JSON ([id],
    [login], [name], [email], [message], [primary], [verified]): none of them
    lives on a prototype, so only an object's own properties answer, and
    reading a property of [null] or [undefined] throws. *)
Definition get (v : jsval) (k : string) : result jsval :=
  match v with
  | VUndef | VNull => Throw TypeError
  | VObj props => Ok (lookup_prop k props)
  | _ => Ok VUndef
  end.

(** [v.length] *)
Definition get_length (v : jsval) : result jsval :=
  match v with
  | VUndef | VNull => Throw TypeError
  | VArr elems => Ok (VNum (Z.of_nat (length elems)))
  | VStr s => Ok (VNum (Z.of_nat (String.length s)))
  | VObj props => Ok (lookup_prop "length" props)
  | _ => Ok VUndef
  end.

(** [s.split(sep)] for a separator of one character. *)
Fixpoint split_on (sep : ascii) (s : string) : list string :=
  match s with
  | EmptyString => [EmptyString]
  | String c rest =>
      if Ascii.eqb c sep then EmptyString :: split_on sep rest
      else match split_on sep rest with
           | cur :: more => String c cur :: more
           | [] => [String c EmptyString]
           end
  end.

(** [v.split(' ', 2)]: only strings have the method. *)
Definition split_space_2 (v : jsval) : result (list string) :=
  match v with
  | VStr s => Ok (firstn 2 (split_on " "%char s))
  | _ => Throw TypeError
  end.

(** [parts[i] || ''] *)
Definition part_or_empty (parts : list string) (i : nat) : string :=
  nth i parts "".

(** [String.prototype.toLowerCase] on the ASCII letters. *)
Definition lower_ascii (c : ascii) : ascii :=
  let n := nat_of_ascii c in
  if (Nat.leb 65 n && Nat.leb n 90)%bool then ascii_of_nat (n + 32) else c.

Fixpoint toLowerCase (s : string) : string :=
  match s with
  | EmptyString => EmptyString
  | String c rest => String (lower_ascii c) (toLowerCase rest)
  end.

(** ** The request *)

(** ToBoolean of a string option that may be absent; [None] is [undefined]. *)
Definition truthy_str (o : option string) : bool :=
  match o with
  | Some s => negb (String.eqb s "")
  | None => false
  end.

(** [a || b] *)
Definition js_or (a b : option string) : option string :=
  if truthy_str a then a else b.

Module Req.
Record t : Type := Build {
  body : option (gmap string string);
  query : option (gmap string string);
  headers : option (gmap string string)
}.
End Req.

(** What [m[field]] can be for a map of the request: a string the map holds,
    or a member the map inherits from [Object.prototype] (a function, or the
    prototype itself for [__proto__]): truthy, and no string. *)
Inductive reqval : Type :=
| RStr (s : string)
| RMember (name : string).

Coercion RStr : string >-> reqval.

(** The names [Object.prototype] answers to. *)
Definition object_prototype_members : list string :=
  ["constructor"; "__defineGetter__"; "__defineSetter__"; "hasOwnProperty";
   "__lookupGetter__"; "__lookupSetter__"; "isPrototypeOf"; "propertyIsEnumerable";
   "toString"; "valueOf"; "__proto__"; "toLocaleString"].

Definition inherited (field : string) : bool :=
  existsb (String.eqb field) object_prototype_members.

(** ToBoolean of a value read off the request; [None] is [undefined]. *)
Definition truthy_req (o : option reqval) : bool :=
  match o with
  | Some (RStr s) => negb (String.eqb s "")
  | Some (RMember _) => true
  | None => false
  end.

(** [a || b] on values read off the request *)
Definition req_or (a b : option reqval) : option reqval :=
  if truthy_req a then a else b.

(** [m[field]] on a map of the request, a plain object: its own entry, or else
    what [Object.prototype] has under that name. *)
Definition member (m : gmap string string) (field : string) : option reqval :=
  match m !! field with
  | Some s => Some (RStr s)
  | None => if inherited field then Some (RMember field) else None
  end.

(** [m && m[field]] *)
Definition and_lookup (m : option (gmap string string)) (field : string) : option reqval :=
  match m with
  | Some m => member m field
  | None => None
  end.

(** ** A reference JSON reader

    [JSON.parse] is a primitive of the language, so the model of the strategy
    takes it as a parameter. [json_parse] is a reader for the part of JSON that
    [jsval] represents (integers only, no [\u] escapes); the examples run the
    strategy with it. *)

Definition is_ws (c : ascii) : bool :=
  let n := nat_of_ascii c in
  (Nat.eqb n 32 || Nat.eqb n 9 || Nat.eqb n 10 || Nat.eqb n 13)%bool.

Fixpoint skip_ws (s : string) : string :=
  match s with
  | String c rest => if is_ws c then skip_ws rest else s
  | EmptyString => s
  end.

Definition is_digit (c : ascii) : bool :=
  let n := nat_of_ascii c in (Nat.leb 48 n && Nat.leb n 57)%bool.

Definition digit_val (c : ascii) : Z := Z.of_nat (nat_of_ascii c - 48).

Fixpoint read_digits (s : string) (acc : Z) : Z * string :=
  match s with
  | String c rest => if is_digit c then read_digits rest (10 * acc + digit_val c) else (acc, s)
  | EmptyString => (acc, s)
  end.

Definition starts_fraction (s : string) : bool :=
  match s with
  | String c _ => (Ascii.eqb c "."%char || Ascii.eqb c "e"%char || Ascii.eqb c "E"%char)%bool
  | EmptyString => false
  end.

(** An integer literal: no leading zero, no fraction, no exponent. *)
Definition read_nat_literal (s : string) : option (Z * string) :=
  match s with
  | String c rest =>
      if Ascii.eqb c "0"%char then
        match rest with
        | String d _ => if (is_digit d || starts_fraction rest)%bool then None else Some (0, rest)
        | EmptyString => Some (0, rest)
        end
      else if is_digit c then
        let '(n, rest') := read_digits s 0 in
        if starts_fraction rest' then None else Some (n, rest')
      else None
  | EmptyString => None
  end.

Definition quote_char : ascii := "034"%char.
Definition backslash_char : ascii := "092"%char.

Definition unescape (c : ascii) : option ascii :=
  if Ascii.eqb c quote_char then Some quote_char
  else if Ascii.eqb c backslash_char then Some backslash_char
  else if Ascii.eqb c "/"%char then Some "/"%char
  else if Ascii.eqb c "b"%char then Some "008"%char
  else if Ascii.eqb c "f"%char then Some "012"%char
  else if Ascii.eqb c "n"%char then Some "010"%char
  else if Ascii.eqb c "r"%char then Some "013"%char
  else if Ascii.eqb c "t"%char then Some "009"%char
  else None.

Definition cons_char (c : ascii) (r : option (string * string)) : option (string * string) :=
  match r with
  | Some (s, rest) => Some (String c s, rest)
  | None => None
  end.

(** The characters of a string literal, after its opening quote. *)
Fixpoint read_chars (s : string) : option (string * string) :=
  match s with
  | EmptyString => None
  | String c rest =>
      if Ascii.eqb c quote_char then Some (EmptyString, rest)
      else if Ascii.eqb c backslash_char then
        match rest with
        | String e rest' =>
            match unescape e with
            | Some c' => cons_char c' (read_chars rest')
            | None => None
            end
        | EmptyString => None
        end
      else if Nat.ltb (nat_of_ascii c) 32 then None
      else cons_char c (read_chars rest)
  end.

Fixpoint strip_prefix (p s : string) : option string :=
  match p, s with
  | EmptyString, _ => Some s
  | String a p', String b s' => if Ascii.eqb a b then strip_prefix p' s' else None
  | String _ _, EmptyString => None
  end.

(** A repeated key keeps its first place and takes the last value. *)
Fixpoint set_prop (k : string) (v : jsval) (props : list (string * jsval)) : list (string * jsval) :=
  match props with
  | [] => [(k, v)]
  | (k', v') :: rest =>
      if String.eqb k k' then (k', v) :: rest else (k', v') :: set_prop k v rest
  end.

Section Reader.
Variable read_value : string -> option (jsval * string).

(** Elements after [[], the first one not yet read. *)
Fixpoint read_elements (n : nat) (s : string) (acc : list jsval) : option (jsval * string) :=
  match n with
  | O => None
  | S n =>
      match read_value s with
      | None => None
      | Some (v, rest) =>
          match skip_ws rest with
          | String c rest' =>
              if Ascii.eqb c ","%char then read_elements n rest' (acc ++ [v])
              else if Ascii.eqb c "]"%char then Some (VArr (acc ++ [v]), rest')
              else None
          | EmptyString => None
          end
      end
  end.

(** Members after [{], the first one not yet read. *)
Fixpoint read_members (n : nat) (s : string) (acc : list (string * jsval)) : option (jsval * string) :=
  match n with
  | O => None
  | S n =>
      match skip_ws s with
      | String q rest =>
          if Ascii.eqb q quote_char then
            match read_chars rest with
            | None => None
            | Some (k, rest) =>
                match skip_ws rest with
                | String c rest =>
                    if Ascii.eqb c ":"%char then
                      match read_value rest with
                      | None => None
                      | Some (v, rest) =>
                          match skip_ws rest with
                          | String c rest' =>
                              if Ascii.eqb c ","%char then read_members n rest' (set_prop k v acc)
                              else if Ascii.eqb c "}"%char then Some (VObj (set_prop k v acc), rest')
                              else None
                          | EmptyString => None
                          end
                      end
                    else None
                | EmptyString => None
                end
            end
          else None
      | EmptyString => None
      end
  end.
End Reader.

Definition head_is (c : ascii) (s : string) : bool :=
  match s with
  | String d _ => Ascii.eqb c d
  | EmptyString => false
  end.

Definition tail (s : string) : string :=
  match s with
  | String _ rest => rest
  | EmptyString => EmptyString
  end.

Fixpoint read_value (fuel : nat) (s : string) : option (jsval * string) :=
  match fuel with
  | O => None
  | S fuel =>
      let s := skip_ws s in
      match s with
      | EmptyString => None
      | String c rest =>
          if Ascii.eqb c "{"%char then
            if head_is "}"%char (skip_ws rest) then Some (VObj [], tail (skip_ws rest))
            else read_members (read_value fuel) (String.length rest) rest []
          else if Ascii.eqb c "["%char then
            if head_is "]"%char (skip_ws rest) then Some (VArr [], tail (skip_ws rest))
            else read_elements (read_value fuel) (String.length rest) rest []
          else if Ascii.eqb c quote_char then
            match read_chars rest with
            | Some (str, rest') => Some (VStr str, rest')
            | None => None
            end
          else if Ascii.eqb c "-"%char then
            match read_nat_literal rest with
            | Some (n, rest') => Some (VNum (- n), rest')
            | None => None
            end
          else if is_digit c then
            match read_nat_literal s with
            | Some (n, rest') => Some (VNum n, rest')
            | None => None
            end
          else
            match strip_prefix "true" s, strip_prefix "false" s, strip_prefix "null" s with
            | Some rest', _, _ => Some (VBool true, rest')
            | _, Some rest', _ => Some (VBool false, rest')
            | _, _, Some rest' => Some (VNull, rest')
            | _, _, _ => None
            end
      end
  end.

Definition json_parse (text : string) : option jsval :=
  match read_value (S (String.length text)) text with
  | Some (v, rest) =>
      match skip_ws rest with
      | EmptyString => Some v
      | String _ _ => None
      end
  | None => None
  end.

(** [a == b] where both operands have the same type; two objects are never
    the same object here, and no operand is converted. *)
Definition same_type_eq (a b : jsval) : bool :=
  match a, b with
  | VUndef, VUndef | VNull, VNull | VUndef, VNull | VNull, VUndef => true
  | VBool x, VBool y => Bool.eqb x y
  | VNum x, VNum y => x =? y
  | VStr x, VStr y => String.eqb x y
  | _, _ => false
  end.

(** A JSON text with quotes, written without them: [q] stands for the quote. *)
Definition q : string := String quote_char EmptyString.

Definition fixture_text : string :=
  "{" +:+ q +:+ "id" +:+ q +:+ ":" +:+ q +:+ "1" +:+ q +:+ ","
      +:+ q +:+ "login" +:+ q +:+ ":" +:+ q +:+ "ghaiklor" +:+ q +:+ ","
      +:+ q +:+ "name" +:+ q +:+ ":" +:+ q +:+ "Eugene Obrezkov" +:+ q +:+ ","
      +:+ q +:+ "email" +:+ q +:+ ":" +:+ q +:+ "ghaiklor@gmail.com" +:+ q +:+ "}".


(** ** Profiles, signals and the strategy object *)

Module Email.
(** An entry of [profile.emails]; a flag that was never assigned is [None]. *)
Record t : Type := Build {
  value : jsval;
  primary : option jsval;
  verified : option jsval
}.
End Email.

(** [json.email && [{ value: json.email }]] is the falsy [json.email] itself,
    or the list. *)
Inductive emails_field : Type :=
| NoList (v : jsval)
| EmailList (l : list Email.t).

Module Profile.
Record name_t : Type := Name {
  familyName : string;
  givenName : string
}.

Record t : Type := Build {
  provider : string;
  id : jsval;
  username : jsval;
  displayName : jsval;
  name : name_t;
  emails : emails_field;
  photos : list jsval;
  _raw : string;
  _json : jsval
}.

Definition with_emails (p : t) (l : list Email.t) : t :=
  Build (provider p) (id p) (username p) (displayName p) (name p)
        (EmailList l) (photos p) (_raw p) (_json p).
End Profile.

(** The three actions the host gives a strategy. *)
Inductive signal : Type :=
| Success (user info : jsval)
| Fail (info : jsval)
| Error (err : js_error).

(** What one call leaves behind: the actions taken, and the exceptions that
    left a callback without being caught. *)
Inductive event : Type :=
| Signal (s : signal)
| Uncaught (e : js_error).

Definition trace : Type := list event.

Definition this_success (user info : jsval) : trace := [Signal (Success user info)].
Definition this_fail (info : jsval) : trace := [Signal (Fail info)].
Definition this_error (err : js_error) : trace := [Signal (Error err)].

(** [options.scope]: a string or a list of strings. *)
Inductive scope_t : Type :=
| ScopeString (s : string)
| ScopeArray (l : list string).

(** [_oauth2.get(url, token, callback)] and [_verify(...)] come from outside;
    both are given a callback. [_verify] gets the request first when
    [passReqToCallback] is set. *)
Record Strategy : Type := {
  _accessTokenField : string;
  _refreshTokenField : string;
  _profileURL : string;
  _passReqToCallback : bool;
  _scope : option scope_t;
  _oauth2_get : string -> reqval -> (option oauth_error -> string -> trace) -> trace;
  _verify : option Req.t -> reqval -> option reqval -> option Profile.t ->
            (jsval -> jsval -> jsval -> trace) -> trace
}.

Record Options : Type := {
  accessTokenField : option string;
  refreshTokenField : option string;
  profileURL : option string;
  passReqToCallback : bool;
  scope : option scope_t
}.

(** [o || d] *)
Definition or_default (o : option string) (d : string) : string :=
  match js_or o (Some d) with
  | Some s => s
  | None => d
  end.

Definition constructor (options : Options)
    (oauth2_get : string -> reqval -> (option oauth_error -> string -> trace) -> trace)
    (verify : option Req.t -> reqval -> option reqval -> option Profile.t ->
              (jsval -> jsval -> jsval -> trace) -> trace) : Strategy :=
  {| _accessTokenField := or_default (accessTokenField options) "access_token";
     _refreshTokenField := or_default (refreshTokenField options) "refresh_token";
     _profileURL := or_default (profileURL options) "https://api.github.com/user";
     _passReqToCallback := passReqToCallback options;
     _scope := scope options;
     _oauth2_get := oauth2_get;
     _verify := verify |}.

(** [this._scope && this._scope.indexOf('user:email') !== -1] *)
Definition scope_has_user_email (sc : option scope_t) : bool :=
  match sc with
  | None => false
  | Some (ScopeString s) =>
      (negb (String.eqb s "") && bool_decide (is_Some (String.index 0 "user:email" s)))%bool
  | Some (ScopeArray l) => existsb (String.eqb "user:email") l
  end.

(** [l.forEach(f)], the state threaded through; an exception ends the loop. *)
Fixpoint forEach {S : Type} (l : list jsval) (f : S -> jsval -> result S) (s : S) : result S :=
  match l with
  | [] => Ok s
  | x :: rest => let! s' := f s x in forEach rest f s'
  end.

(** [json.forEach]: only arrays have the method. *)
Definition elements_of (json : jsval) : result (list jsval) :=
  match json with
  | VArr l => Ok l
  | _ => Throw TypeError
  end.

(** [profile.emails || []] *)
Definition emails_or_empty (e : emails_field) : list Email.t :=
  match e with
  | EmailList l => l
  | NoList _ => []
  end.

(** [profile.emails[0].primary = p; profile.emails[0].verified = v] *)
Definition set_flags_0 (emails : list Email.t) (p v : jsval) : result (list Email.t) :=
  match emails with
  | e :: rest => Ok (Email.Build (Email.value e) (Some p) (Some v) :: rest)
  | [] => Throw TypeError
  end.

Section Engine.
(** The two primitives of the language the strategy relies on: [JSON.parse]
    ([None] when it throws) and the [==] comparison. *)
Variable JSON_parse : string -> option jsval.
Variable loose_eq : jsval -> jsval -> bool.

Definition parse (text : string) : result jsval :=
  match JSON_parse text with
  | Some v => Ok v
  | None => Throw SyntaxError
  end.

(** [JSON.parse(error.data)]: [undefined] is not JSON. *)
Definition parse_data (d : option string) : result jsval :=
  match d with
  | Some text => parse text
  | None => Throw SyntaxError
  end.

(** The object literal of lines 98-111. *)
Definition normalize (body : string) (json : jsval) : result Profile.t :=
  let! id := get json "id" in
  let! login := get json "login" in
  let! name := get json "name" in
  let! familyName :=
    (if truthy name then let! parts := split_space_2 name in Ok (part_or_empty parts 1)
     else Ok "") in
  let! givenName :=
    (if truthy name then let! parts := split_space_2 name in Ok (part_or_empty parts 0)
     else Ok "") in
  let! email := get json "email" in
  Ok {| Profile.provider := "github";
        Profile.id := id;
        Profile.username := login;
        Profile.displayName := if truthy name then name else VStr "";
        Profile.name := {| Profile.familyName := familyName; Profile.givenName := givenName |};
        Profile.emails :=
          if truthy email then EmailList [Email.Build email None None] else NoList email;
        Profile.photos := [];
        Profile._raw := body;
        Profile._json := json |}.

(** The [try] block of lines 96-111. *)
Definition build_profile (body : string) : result Profile.t :=
  let! json := parse body in normalize body json.

(** The body of the [forEach] callback of lines 132-139. *)
Definition merge_email (publicEmail : option Email.t) (emails : list Email.t)
    (email : jsval) : result (list Email.t) :=
  let push :=
    let! addr := get email "email" in
    let! p := get email "primary" in
    let! v := get email "verified" in
    Ok (emails ++ [Email.Build addr (Some p) (Some v)])%list in
  match publicEmail with
  | Some pub =>
      let! addr := get email "email" in
      if loose_eq (Email.value pub) addr then
        let! p := get email "primary" in
        let! v := get email "verified" in
        set_flags_0 emails p v
      else push
  | None => push
  end.

(** Lines 129-139. *)
Definition merge_emails (emails : emails_field) (json : jsval) : result (list Email.t) :=
  let emails := emails_or_empty emails in
  let publicEmail := head emails in
  let! records := elements_of json in
  forEach records (merge_email publicEmail) emails.

(** The callback of the second request, lines 117-142. *)
Definition emails_callback (profile : Profile.t)
    (done : option js_error -> option Profile.t -> trace)
    (error : option oauth_error) (body : string) : trace :=
  match error with
  | Some _ => done None (Some profile)
  | None =>
      match parse body with
      | Throw _ => done None (Some profile)
      | Ok json =>
          match get_length json with
          | Throw e => [Uncaught e]
          | Ok len =>
              if negb (truthy len) then done None (Some profile)
              else
                match merge_emails (Profile.emails profile) json with
                | Throw e => [Uncaught e]
                | Ok emails => done None (Some (Profile.with_emails profile emails))
                end
          end
      end
  end.

(** [userProfile(accessToken, done)], lines 83-148. *)
Definition userProfile (this : Strategy) (accessToken : reqval)
    (done : option js_error -> option Profile.t -> trace) : trace :=
  _oauth2_get this (_profileURL this) accessToken (fun error body =>
    match error with
    | Some error =>
        try_catch
          (let! errorJSON := parse_data (data error) in
           let! message := get errorJSON "message" in
           Ok (done (Some (InternalOAuthError message (CauseStatus (statusCode error)))) None))
          (fun _ =>
             done (Some (InternalOAuthError (VStr "Failed to fetch user profile")
                                            (CauseError error))) None)
    | None =>
        match build_profile body with
        | Throw e => done (Some e) None
        | Ok profile =>
            if scope_has_user_email (_scope this) then
              _oauth2_get this (_profileURL this +:+ "/emails") accessToken
                          (emails_callback profile done)
            else done None (Some profile)
        end
    end).

(** [_loadUserProfile] is inherited from [OAuth2Strategy]; the strategy sets
    no [skipUserProfile], so it calls [userProfile]. *)
Definition _loadUserProfile (this : Strategy) (accessToken : reqval)
    (done : option js_error -> option Profile.t -> trace) : trace :=
  userProfile this accessToken done.

(** The completion callback handed to [_verify], lines 63-68. *)
Definition verified (error user info : jsval) : trace :=
  if truthy error then this_error (UserError error)
  else if negb (truthy user) then this_fail info
  else this_success user info.

(** The callback handed to [_loadUserProfile], lines 60-75. *)
Definition on_profile (this : Strategy) (req : Req.t) (accessToken : reqval)
    (refreshToken : option reqval) (error : option js_error)
    (profile : option Profile.t) : trace :=
  match error with
  | Some error => this_error error
  | None =>
      if _passReqToCallback this then
        _verify this (Some req) accessToken refreshToken profile verified
      else
        _verify this None accessToken refreshToken profile verified
  end.

(** [{ message: `You should provide ${field}` }] *)
Definition missing_token_info (field : string) : jsval :=
  VObj [("message", VStr ("You should provide " +:+ field))].

(** Lines 55-56 of [src/index.js]: body, then query. *)
Definition find_token (req : Req.t) (field : string) : option reqval :=
  req_or (and_lookup (Req.body req) field) (and_lookup (Req.query req) field).

(** [authenticate(req, options)], lines 54-76. *)
Definition authenticate (this : Strategy) (req : Req.t) : trace :=
  let accessToken := find_token req (_accessTokenField this) in
  let refreshToken := find_token req (_refreshTokenField this) in
  match accessToken with
  | Some token =>
      if truthy_req accessToken
      then _loadUserProfile this token (on_profile this req token refreshToken)
      else this_fail (missing_token_info (_accessTokenField this))
  | None => this_fail (missing_token_info (_accessTokenField this))
  end.
End Engine.

(** ** The other revision of the file

    The repository also carries a revision of the same class without the
    second request; it reads the headers and always builds the list of
    e-mails. Its token lookup and its object literal are embedded here. *)
Module Part000.
(** The object literal of lines 94-107. *)
Definition normalize (body : string) (json : jsval) : result Profile.t :=
  let! id := get json "id" in
  let! login := get json "login" in
  let! name := get json "name" in
  let! familyName :=
    (if truthy name then let! parts := split_space_2 name in Ok (part_or_empty parts 1)
     else Ok "") in
  let! givenName :=
    (if truthy name then let! parts := split_space_2 name in Ok (part_or_empty parts 0)
     else Ok "") in
  let! email := get json "email" in
  Ok {| Profile.provider := "github";
        Profile.id := id;
        Profile.username := login;
        Profile.displayName := if truthy name then name else VStr "";
        Profile.name := {| Profile.familyName := familyName; Profile.givenName := givenName |};
        Profile.emails :=
          EmailList [Email.Build (if truthy email then email else VStr "") None None];
        Profile.photos := [];
        Profile._raw := body;
        Profile._json := json |}.

(** Lines 53-54: body, then query, then the headers under the field's name
    and under its lower-case form. *)
Definition find_token (req : Req.t) (field : string) : option reqval :=
  req_or (req_or (and_lookup (Req.body req) field) (and_lookup (Req.query req) field))
         (match Req.headers req with
          | Some h => req_or (member h field) (member h (toLowerCase field))
          | None => None
          end).
End Part000.

(** ** Collaborators used in the examples *)

(** A transport that answers every request once, with the body [respond]
    gives for the URL, or with the error it gives. *)
Definition transport (respond : string -> oauth_error + string)
    (url : string) (token : reqval)
    (callback : option oauth_error -> string -> trace) : trace :=
  match respond url with
  | inl e => callback (Some e) ""
  | inr text => callback None text
  end.

(** The application callback of the tests: [next(null, profile, {info: 'foo'})];
    the profile stands for the user, as an object. *)
Definition verify_accept (req : option Req.t) (accessToken : reqval)
    (refreshToken : option reqval) (profile : option Profile.t)
    (next : jsval -> jsval -> jsval -> trace) : trace :=
  next VNull
       (match profile with
        | Some p => VObj [("id", Profile.id p)]
        | None => VUndef
        end)
       (VObj [("info", VStr "foo")]).

(** A transport that never calls back. *)
Definition transport_silent (url : string) (token : reqval)
    (callback : option oauth_error -> string -> trace) : trace := [].

(** An application callback that never completes. *)
Definition verify_silent (req : option Req.t) (accessToken : reqval)
    (refreshToken : option reqval) (profile : option Profile.t)
    (next : jsval -> jsval -> jsval -> trace) : trace := [].

Definition default_options : Options :=
  {| accessTokenField := None; refreshTokenField := None; profileURL := None;
     passReqToCallback := false; scope := None |}.

Definition email_scope_options : Options :=
  {| accessTokenField := None; refreshTokenField := None; profileURL := None;
     passReqToCallback := false; scope := Some (ScopeString "user:email") |}.

Definition respond_fixture (url : string) : oauth_error + string := inr fixture_text.

(** [req.headers = { access_token: 'access_token', refresh_token: 'refresh_token' }] *)
Definition req_headers_only : Req.t :=
  {| Req.body := None; Req.query := None;
     Req.headers := Some (<["access_token" := "access_token"]>
                          (<["refresh_token" := "refresh_token"]> ∅)) |}.

(** [req.body = { access_token: 'access_token', refresh_token: 'refresh_token' }] *)
Definition req_body_only : Req.t :=
  {| Req.body := Some (<["access_token" := "access_token"]>
                       (<["refresh_token" := "refresh_token"]> ∅));
     Req.query := None; Req.headers := None |}.

Definition req_empty : Req.t :=
  {| Req.body := None; Req.query := None; Req.headers := None |}.

(** ** The vocabulary of the properties *)

(** [s] has [sub] somewhere inside it. *)
Definition contains (sub s : string) : Prop :=
  exists pre post, s = pre +:+ sub +:+ post.

(** The field is in none of the three maps of the request: [req.body[field]],
    [req.query[field]] and [req.headers[field]] are all [undefined], no map
    having the field as its own or inheriting it. *)
Definition lacks (req : Req.t) (field : string) : Prop :=
  and_lookup (Req.body req) field = None /\
  and_lookup (Req.query req) field = None /\
  and_lookup (Req.headers req) field = None.

(** The collaborator calls its callback exactly once, with these arguments. *)
Definition answers (this : Strategy) (url : string) (token : reqval)
    (error : option oauth_error) (body : string) : Prop :=
  forall callback, _oauth2_get this url token callback = callback error body.

(** The error [userProfile] makes when it cannot read the transport's error. *)
Definition fetch_failed (err : oauth_error) : js_error :=
  InternalOAuthError (VStr "Failed to fetch user profile") (CauseError err).

Fixpoint has_space (s : string) : bool :=
  match s with
  | EmptyString => false
  | String c rest => (Ascii.eqb c " "%char || has_space rest)%bool
  end.

(** [json.name] and [json.email] as [normalize] reads them. *)
Definition prop (json : jsval) (k : string) : jsval :=
  match json with
  | VObj props => lookup_prop k props
  | _ => VUndef
  end.

(** What [normalize] makes of a name it can split. *)
Definition name_parts (s : string) : Profile.name_t :=
  {| Profile.familyName := part_or_empty (firstn 2 (split_on " "%char s)) 1;
     Profile.givenName := part_or_empty (firstn 2 (split_on " "%char s)) 0 |}.

(** The entry made of a returned record. *)
Definition entry_of (r : jsval) : Email.t :=
  Email.Build (prop r "email") (Some (prop r "primary")) (Some (prop r "verified")).

(** An entry with the flags of a returned record. *)
Definition with_flags (e : Email.t) (r : jsval) : Email.t :=
  Email.Build (Email.value e) (Some (prop r "primary")) (Some (prop r "verified")).

Definition is_record (r : jsval) : Prop := r <> VNull /\ r <> VUndef.

(** The trace is one terminal signal and nothing else. *)
Definition one_signal (t : trace) : Prop := exists s, t = [Signal s].

(** The application's callback calls its completion exactly once. *)
Definition verify_completes (this : Strategy) : Prop :=
  forall req token refreshToken profile, exists error user info, forall next,
    _verify this req token refreshToken profile next = next error user info.

(** The transport calls back exactly once on every request. *)
Definition transport_answers (this : Strategy) : Prop :=
  forall url token, exists error body, answers this url token error body.

(** ** Requests and answers of the tests and of the specification *)

(** The profile of the tests' fixture, as parsed. *)
Definition fixture_json : jsval :=
  VObj [("id", VStr "1"); ("login", VStr "ghaiklor");
        ("name", VStr "Eugene Obrezkov"); ("email", VStr "ghaiklor@gmail.com")].

Definition fixture_profile (body : string) : Profile.t :=
  {| Profile.provider := "github";
     Profile.id := VStr "1";
     Profile.username := VStr "ghaiklor";
     Profile.displayName := VStr "Eugene Obrezkov";
     Profile.name := {| Profile.familyName := "Obrezkov"; Profile.givenName := "Eugene" |};
     Profile.emails := EmailList [Email.Build (VStr "ghaiklor@gmail.com") None None];
     Profile.photos := [];
     Profile._raw := body;
     Profile._json := fixture_json |}.

(** The transport of the test `Should properly handle exception on fetching
    profile`. *)
Definition respond_not_json (url : string) : oauth_error + string := inr "not a JSON".

(** A transport whose answer to the profile request is an error with [data]. *)
Definition respond_error (text : string) (code : Z) (url : string) : oauth_error + string :=
  inl {| data := Some text; statusCode := Some code |}.

Definition bad_credentials_text : string :=
  "{" +:+ q +:+ "message" +:+ q +:+ ":" +:+ q +:+ "Bad credentials" +:+ q +:+ "}".

(** A transport that answers the request for the e-mails with [emails] and the
    profile request with the fixture. *)
Definition respond_with_emails (emails : oauth_error + string) (url : string)
    : oauth_error + string :=
  if String.eqb url "https://api.github.com/user/emails" then emails else inr fixture_text.

(** [[{email:'ghaiklor@gmail.com', primary:true, verified:true}]] *)
Definition same_email_text : string :=
  "[{" +:+ q +:+ "email" +:+ q +:+ ":" +:+ q +:+ "ghaiklor@gmail.com" +:+ q +:+ ","
       +:+ q +:+ "primary" +:+ q +:+ ":true,"
       +:+ q +:+ "verified" +:+ q +:+ ":true}]".

Definition same_email_record : jsval :=
  VObj [("email", VStr "ghaiklor@gmail.com"); ("primary", VBool true);
        ("verified", VBool true)].

Definition other_email_record : jsval :=
  VObj [("email", VStr "eugene@example.com"); ("primary", VBool false);
        ("verified", VBool true)].

(** ** The vocabulary and the inputs of the further properties *)

(** The two profiles differ in [emails] at most. *)
Definition same_but_emails (p p' : Profile.t) : Prop :=
  Profile.provider p' = Profile.provider p /\
  Profile.id p' = Profile.id p /\
  Profile.username p' = Profile.username p /\
  Profile.displayName p' = Profile.displayName p /\
  Profile.name p' = Profile.name p /\
  Profile.photos p' = Profile.photos p /\
  Profile._raw p' = Profile._raw p /\
  Profile._json p' = Profile._json p.


(** A request with an empty body and the field [constructor] in the query. *)
Definition req_inherited_field : Req.t :=
  {| Req.body := Some ∅;
     Req.query := Some (<["constructor" := "tok"]> ∅);
     Req.headers := None |}.

(** Options whose access-token field is named as a member every object
    inherits. *)
Definition inherited_field_options : Options :=
  {| accessTokenField := Some "constructor"; refreshTokenField := None; profileURL := None;
     passReqToCallback := false; scope := None |}.

(** Options that name the access-token field, give the empty string for the
    refresh-token field and no profile URL. *)
Definition named_options : Options :=
  {| accessTokenField := Some "token"; refreshTokenField := Some ""; profileURL := None;
     passReqToCallback := false; scope := None |}.

(** A transport that answers the profile request with [{}] and the request for
    the e-mails with the list of the specification's example. *)
Definition respond_bare_with_emails (url : string) : oauth_error + string :=
  if String.eqb url "https://api.github.com/user/emails" then inr same_email_text else inr "{}".

(** The profile built from [{}]. *)
Definition bare_profile : Profile.t :=
  {| Profile.provider := "github";
     Profile.id := VUndef;
     Profile.username := VUndef;
     Profile.displayName := VStr "";
     Profile.name := {| Profile.familyName := ""; Profile.givenName := "" |};
     Profile.emails := NoList VUndef;
     Profile.photos := [];
     Profile._raw := "{}";
     Profile._json := VObj [] |}.

(** An application callback that would take every path at once. *)
Definition verify_noisy (req : option Req.t) (accessToken : reqval)
    (refreshToken : option reqval) (profile : option Profile.t)
    (next : jsval -> jsval -> jsval -> trace) : trace :=
  (next VNull (VBool true) VUndef ++ next VNull VNull VUndef)%list.

(** A response whose name is a number. *)
Definition numeric_name_text : string :=
  "{" +:+ q +:+ "name" +:+ q +:+ ":42}".


(** ** Claims as the specification words them *)

(** C4 as the claim has it: the e-mails of a normalized profile are a list
    whose first entry holds the upstream e-mail, or the empty string. *)
Definition C4_as_stated : Prop :=
  forall (body : string) (json : jsval) (p : Profile.t),
    normalize body json = Ok p ->
    exists e rest,
      Profile.emails p = EmailList (e :: rest) /\
      Email.value e = (if truthy (prop json "email") then prop json "email" else VStr "").

(** C6 as the claim has it: the family name is all the text after the first
    space. *)
Definition C6_as_stated : Prop :=
  forall (body : string) (json : jsval) (p : Profile.t) (g f : string),
    normalize body json = Ok p ->
    prop json "name" = VStr (g +:+ " " +:+ f) -> has_space g = false ->
    Profile.name p = {| Profile.familyName := f; Profile.givenName := g |}.

Section Properties.
Variable JSON_parse : string -> option jsval.
Variable loose_eq : jsval -> jsval -> bool.

(** C9 as the claim has it: whenever the error's data parses, the error
    handed to [done] is the classified one. *)
Definition C9_as_stated : Prop :=
  forall (this : Strategy) (token body text : string) (err : oauth_error) (json : jsval),
    answers this (_profileURL this) token (Some err) body ->
    data err = Some text -> JSON_parse text = Some json ->
    forall done, exists message,
      userProfile JSON_parse loose_eq this token done
      = done (Some (InternalOAuthError message (CauseStatus (statusCode err)))) None.

(** [userProfile] calls [done] exactly once. *)
Definition fetch_completes (this : Strategy) (token : reqval) : Prop :=
  exists error profile, forall done,
    userProfile JSON_parse loose_eq this token done = done error profile.

(** C8 as the claim has it: after any answer with a non-empty list, [done]
    gets a profile whose e-mails are the ones there were, merged with the
    list. *)
Definition C8_as_stated : Prop :=
  forall (this : Strategy) (token body body2 : string) (profile : Profile.t)
         (records : list jsval),
    answers this (_profileURL this) token None body ->
    build_profile JSON_parse body = Ok profile ->
    scope_has_user_email (_scope this) = true ->
    answers this (_profileURL this +:+ "/emails") token None body2 ->
    JSON_parse body2 = Some (VArr records) ->
    records <> [] ->
    exists p' emails,
      (forall done, userProfile JSON_parse loose_eq this token done = done None (Some p')) /\
      Profile.emails p' = EmailList emails.

(** A parsed answer to the request for the e-mails that lines 127-139 can
    handle: its [length] can be read and is falsy, or it is a list of records,
    none of them [null]. *)
Definition emails_usable (json : jsval) : Prop :=
  (exists len, get_length json = Ok len /\ truthy len = false) \/
  (exists records, json = VArr records /\ Forall is_record records).

(** Whenever the scope asks for the e-mails, every body the transport gives
    for them without an error is not JSON at all, or is usable. *)
Definition emails_answers_usable (this : Strategy) : Prop :=
  scope_has_user_email (_scope this) = true ->
  forall (token : reqval) (body2 : string) (json : jsval),
    answers this (_profileURL this +:+ "/emails") token None body2 ->
    JSON_parse body2 = Some json -> emails_usable json.

(** C10 as the claim has it. *)
Definition C10_as_stated : Prop :=
  forall (this : Strategy) (req : Req.t),
    one_signal (authenticate JSON_parse loose_eq this req).

(** *** The merge of the e-mails, in the words of the specification *)

(** The record's address equals the value of the public e-mail. *)
Definition same_address (pub : Email.t) (r : jsval) : bool :=
  loose_eq (Email.value pub) (prop r "email").

(** The record is appended: there is no public e-mail, or it has another
    address. *)
Definition is_new (emails : list Email.t) (r : jsval) : bool :=
  match head emails with
  | Some pub => negb (same_address pub r)
  | None => true
  end.

(** The first entry after the records seen: each record of the public
    e-mail's address leaves its flags. *)
Definition fold_flags (pub : Email.t) (records : list jsval) (e : Email.t) : Email.t :=
  fold_left (fun e r => if same_address pub r then with_flags e r else e) records e.

(** The entries there were, the first with the flags of the records of its
    address. *)
Definition merge_flags (emails : list Email.t) (records : list jsval) : list Email.t :=
  match emails with
  | [] => []
  | pub :: others => fold_flags pub records pub :: others
  end.

Definition merged (emails : list Email.t) (records : list jsval) : list Email.t :=
  (merge_flags emails records ++ map entry_of (List.filter (is_new emails) records))%list.

(** * Properties *)

(** ** Finding the tokens *)

Lemma req_or_truthy (a b : option reqval) :
  truthy_req a = true -> req_or a b = a.
Proof. unfold req_or. intros ->. reflexivity. Qed.

Lemma req_or_falsy (a b : option reqval) :
  truthy_req a = false -> req_or a b = b.
Proof. unfold req_or. intros ->. reflexivity. Qed.

Lemma truthy_req_Some (v : string) :
  v <> "" -> truthy_req (Some (RStr v)) = true.
Proof.
  intros Hv. simpl. destruct (String.eqb_spec v ""); [contradiction | reflexivity].
Qed.

(** In [src/index.js] a value in the body wins over the query. *)
Lemma find_token_body (req : Req.t) (field v : string) :
  and_lookup (Req.body req) field = Some (RStr v) -> v <> "" ->
  find_token req field = Some (RStr v).
Proof.
  intros Hb Hv. unfold find_token. rewrite Hb. apply req_or_truthy, truthy_req_Some, Hv.
Qed.

(** ... and a value in the query is found when the body has none. *)
Lemma find_token_query (req : Req.t) (field : string) :
  and_lookup (Req.body req) field = None ->
  find_token req field = and_lookup (Req.query req) field.
Proof. intros Hb. unfold find_token. rewrite Hb. reflexivity. Qed.

(** [src/index.js] never reads [req.headers]. *)
Lemma find_token_ignores_headers (b qr h h' : option (gmap string string)) (field : string) :
  find_token (Req.Build b qr h) field = find_token (Req.Build b qr h') field.
Proof. reflexivity. Qed.

Lemma authenticate_found_truthy (this : Strategy) (req : Req.t) (token : reqval) :
  find_token req (_accessTokenField this) = Some token ->
  truthy_req (Some token) = true ->
  authenticate JSON_parse loose_eq this req
  = userProfile JSON_parse loose_eq this token
      (on_profile this req token (find_token req (_refreshTokenField this))).
Proof.
  intros Hf Ht. unfold authenticate, _loadUserProfile. rewrite Hf, Ht. reflexivity.
Qed.

Lemma authenticate_found (this : Strategy) (req : Req.t) (token : string) :
  find_token req (_accessTokenField this) = Some (RStr token) -> token <> "" ->
  authenticate JSON_parse loose_eq this req
  = userProfile JSON_parse loose_eq this token
      (on_profile this req token (find_token req (_refreshTokenField this))).
Proof.
  intros Hf Hne. apply authenticate_found_truthy; [exact Hf | apply truthy_req_Some, Hne].
Qed.

Lemma append_empty_r (s : string) : s +:+ EmptyString = s.
Proof.
  induction s as [|c s IH]; [reflexivity |].
  change (String c (s +:+ EmptyString) = String c s). now rewrite IH.
Qed.


(** C1, on the request of the test `Should properly parse access_token`: the
    access token is in the headers only, under the configured name, and
    [authenticate] of [src/index.js] does not find it: it takes the [fail]
    action with the message of a missing token. *)
Theorem C1_header_token_not_found :
  forall oauth2_get verify,
    authenticate JSON_parse loose_eq
      (constructor default_options oauth2_get verify) req_headers_only
    = [Signal (Fail (VObj [("message", VStr "You should provide access_token")]))].
Proof. intros. reflexivity. Qed.


(** ** The first request *)

Lemma get_prop (json : jsval) (k : string) :
  json <> VNull -> json <> VUndef -> get json k = Ok (prop json k).
Proof. destruct json; intros; try contradiction; reflexivity. Qed.

Lemma userProfile_primary_ok (this : Strategy) (token : reqval) (body : string) done :
  answers this (_profileURL this) token None body ->
  userProfile JSON_parse loose_eq this token done =
  match build_profile JSON_parse body with
  | Throw e => done (Some e) None
  | Ok profile =>
      if scope_has_user_email (_scope this) then
        _oauth2_get this (_profileURL this +:+ "/emails") token
                    (emails_callback JSON_parse loose_eq profile done)
      else done None (Some profile)
  end.
Proof. intros Hans. unfold userProfile. rewrite Hans. reflexivity. Qed.

Lemma userProfile_primary_error (this : Strategy) (token : reqval) (body : string) err done :
  answers this (_profileURL this) token (Some err) body ->
  userProfile JSON_parse loose_eq this token done =
  match (let! errorJSON := parse_data JSON_parse (data err) in get errorJSON "message") with
  | Ok message => done (Some (InternalOAuthError message (CauseStatus (statusCode err)))) None
  | Throw _ => done (Some (fetch_failed err)) None
  end.
Proof.
  intros Hans. unfold userProfile. rewrite Hans.
  destruct (parse_data JSON_parse (data err)) as [json|e]; simpl; [| reflexivity].
  destruct (get json "message"); reflexivity.
Qed.

(** C3: when the transport answers the profile request with a body that
    [JSON.parse] rejects, [userProfile] calls [done] once, with the parse
    error and no profile, and [authenticate] takes the [error] action with
    that error. *)
Theorem C3_malformed_primary_body (this : Strategy) (token body : string) :
  answers this (_profileURL this) token None body ->
  JSON_parse body = None ->
  (forall done, userProfile JSON_parse loose_eq this token done = done (Some SyntaxError) None) /\
  (forall req, find_token req (_accessTokenField this) = Some (RStr token) -> token <> "" ->
               authenticate JSON_parse loose_eq this req = [Signal (Error SyntaxError)]).
Proof.
  intros Hans Hbad.
  assert (Hdone : forall done, userProfile JSON_parse loose_eq this token done = done (Some SyntaxError) None).
  { intros done. rewrite (userProfile_primary_ok _ _ _ _ Hans).
    unfold build_profile, parse. rewrite Hbad. reflexivity. }
  split; [exact Hdone |].
  intros req Hf Hne. rewrite (authenticate_found _ _ _ Hf Hne), Hdone. reflexivity.
Qed.

(** C9, amended: on a transport error on the profile request, [userProfile]
    calls [done] once and with no profile. The error is the classified one,
    with the parsed data's [message] and the transport's status code, when
    the data parses to something other than [null]; it is the generic
    `Failed to fetch user profile` around the transport's error when the data
    does not parse, and also when it parses to [null]. *)
Theorem C9_transport_error (this : Strategy) (token body : string) (err : oauth_error) :
  answers this (_profileURL this) token (Some err) body ->
  (forall text json,
      data err = Some text -> JSON_parse text = Some json ->
      json <> VNull -> json <> VUndef ->
      forall done, userProfile JSON_parse loose_eq this token done
                   = done (Some (InternalOAuthError (prop json "message")
                                                    (CauseStatus (statusCode err)))) None) /\
  (parse_data JSON_parse (data err) = Throw SyntaxError ->
   forall done, userProfile JSON_parse loose_eq this token done = done (Some (fetch_failed err)) None) /\
  (forall text,
      data err = Some text -> JSON_parse text = Some VNull ->
      forall done, userProfile JSON_parse loose_eq this token done = done (Some (fetch_failed err)) None).
Proof.
  intros Hans. repeat split.
  - intros text json Hd Hp Hn Hu done.
    rewrite (userProfile_primary_error _ _ _ _ _ Hans), Hd. simpl. unfold parse.
    rewrite Hp. simpl. rewrite (get_prop json _ Hn Hu). reflexivity.
  - intros Hp done.
    rewrite (userProfile_primary_error _ _ _ _ _ Hans), Hp. reflexivity.
  - intros text Hd Hp done.
    rewrite (userProfile_primary_error _ _ _ _ _ Hans), Hd. simpl. unfold parse.
    rewrite Hp. reflexivity.
Qed.

(** Of an object, an array, a string, a number or a boolean a property can be
    read. *)
Lemma get_not_null (json : jsval) (k : string) :
  json <> VNull -> json <> VUndef -> exists v, get json k = Ok v.
Proof. destruct json; intros; try contradiction; eexists; reflexivity. Qed.

(** ** The profile *)

Lemma split_on_not_nil (sep : ascii) (s : string) : split_on sep s <> [].
Proof.
  destruct s as [|c s]; simpl; [discriminate |].
  destruct (Ascii.eqb c sep); [discriminate |].
  destruct (split_on sep s); discriminate.
Qed.

Lemma split_on_no_space (s : string) :
  has_space s = false -> split_on " "%char s = [s].
Proof.
  induction s as [|c s IH]; simpl; [reflexivity |].
  intros H. apply orb_false_iff in H as [Hc Hs]. rewrite Hc, (IH Hs). reflexivity.
Qed.

Lemma split_on_space (g t : string) :
  has_space g = false ->
  split_on " "%char (g +:+ String " "%char t) = g :: split_on " "%char t.
Proof.
  induction g as [|c g IH]; intros H.
  - reflexivity.
  - simpl in H. apply orb_false_iff in H as [Hc Hg].
    change (String c g +:+ String " "%char t) with (String c (g +:+ String " "%char t)).
    simpl. rewrite Hc, (IH Hg). reflexivity.
Qed.

Lemma normalize_inv (body : string) (json : jsval) (p : Profile.t) :
  normalize body json = Ok p ->
  json <> VNull /\ json <> VUndef /\
  (truthy (prop json "name") = true -> exists s, prop json "name" = VStr s) /\
  p = {| Profile.provider := "github";
         Profile.id := prop json "id";
         Profile.username := prop json "login";
         Profile.displayName :=
           if truthy (prop json "name") then prop json "name" else VStr "";
         Profile.name :=
           match prop json "name" with
           | VStr s => if String.eqb s "" then Profile.Name "" "" else name_parts s
           | _ => Profile.Name "" ""
           end;
         Profile.emails :=
           if truthy (prop json "email")
           then EmailList [Email.Build (prop json "email") None None]
           else NoList (prop json "email");
         Profile.photos := [];
         Profile._raw := body;
         Profile._json := json |}.
Proof.
  intros H.
  assert (Hnn : json <> VNull /\ json <> VUndef).
  { destruct json; simpl in H; try discriminate; split; discriminate. }
  destruct Hnn as [Hn Hu]. split; [exact Hn | split; [exact Hu |]].
  unfold normalize in H. rewrite !(get_prop json _ Hn Hu) in H. simpl in H.
  destruct (prop json "name") as [| |b|n|s|l|o] eqn:Hname; simpl in *.
  - inversion H; subst; split; [intros Ht; discriminate Ht | reflexivity].
  - inversion H; subst; split; [intros Ht; discriminate Ht | reflexivity].
  - destruct b; simpl in H; [discriminate H |].
    inversion H; subst; split; [intros Ht; discriminate Ht | reflexivity].
  - destruct (n =? 0); simpl in *; [| discriminate H].
    inversion H; subst; split; [intros Ht; discriminate Ht | reflexivity].
  - destruct (String.eqb s ""); simpl in *;
      inversion H; subst; (split; [intros _; eexists; reflexivity | reflexivity]).
  - discriminate H.
  - discriminate H.
Qed.

(** C4, amended: in a profile built from a parsed response, [emails] is the
    one-entry list holding the upstream e-mail when that e-mail is truthy;
    when it is absent (or falsy in another way) [emails] is no list at all but
    the upstream value itself, [undefined] for an absent field, so that
    [profile.emails || []] is empty. *)
Theorem C4_emails_after_normalize (body : string) (json : jsval) (p : Profile.t) :
  normalize body json = Ok p ->
  (truthy (prop json "email") = true ->
   Profile.emails p = EmailList [Email.Build (prop json "email") None None]) /\
  (truthy (prop json "email") = false ->
   Profile.emails p = NoList (prop json "email") /\
   emails_or_empty (Profile.emails p) = []) /\
  (forall props, json = VObj props -> lookup_prop "email" props = VUndef ->
   Profile.emails p = NoList VUndef).
Proof.
  intros H. destruct (normalize_inv _ _ _ H) as (_ & _ & _ & ->). simpl.
  split; [| split].
  - intros ->. reflexivity.
  - intros ->. split; reflexivity.
  - intros props -> Hl. simpl. rewrite Hl. reflexivity.
Qed.

(** X21: The other revision builds the list in every case. *)
Lemma Part000_emails_after_normalize (body : string) (json : jsval) (p : Profile.t) :
  Part000.normalize body json = Ok p ->
  Profile.emails p
  = EmailList [Email.Build (if truthy (prop json "email") then prop json "email" else VStr "")
                           None None].
Proof.
  intros H.
  assert (Hnn : json <> VNull /\ json <> VUndef).
  { destruct json; simpl in H; try discriminate; split; discriminate. }
  destruct Hnn as [Hn Hu].
  unfold Part000.normalize in H. rewrite !(get_prop json _ Hn Hu) in H. simpl in H.
  destruct (truthy (prop json "name")); simpl in H.
  - destruct (split_space_2 (prop json "name")); simpl in H; [| discriminate].
    inversion H; reflexivity.
  - inversion H; reflexivity.
Qed.

(** C5: the fixture [{id:'1', login:'ghaiklor', name:'Eugene Obrezkov',
    email:'ghaiklor@gmail.com'}] is normalized to provider [github], id ['1'],
    username [ghaiklor], display name [Eugene Obrezkov], given name [Eugene],
    family name [Obrezkov], the one e-mail [{value:'ghaiklor@gmail.com'}] and no
    photos; and that is the profile [userProfile] hands to [done] when the
    body parses to the fixture and the scope asks for no second request. *)
Theorem C5_fixture_normalized :
  (forall body, normalize body fixture_json = Ok (fixture_profile body)) /\
  (forall (this : Strategy) (token body : string),
      answers this (_profileURL this) token None body ->
      JSON_parse body = Some fixture_json ->
      scope_has_user_email (_scope this) = false ->
      forall done,
        userProfile JSON_parse loose_eq this token done
        = done None (Some (fixture_profile body))).
Proof.
  split; [reflexivity |].
  intros this token body Hans Hp Hs done.
  rewrite (userProfile_primary_ok _ _ _ _ Hans).
  unfold build_profile, parse. rewrite Hp, Hs. reflexivity.
Qed.

Lemma append_space_not_empty (g t : string) :
  String.eqb (g +:+ String " "%char t) "" = false.
Proof. destruct g; reflexivity. Qed.

(** C6, amended: in a profile built from a parsed response, the given name is
    the text of the upstream name before its first space and the family name
    is the text between the first space and the second one (up to the end when
    there is no second space); a name with no space is the given name and
    leaves the family name empty, and an absent (or falsy) name leaves both
    empty. *)
Theorem C6_name_split (body : string) (json : jsval) (p : Profile.t) :
  normalize body json = Ok p ->
  (truthy (prop json "name") = false ->
   Profile.name p = {| Profile.familyName := ""; Profile.givenName := "" |}) /\
  (forall s, prop json "name" = VStr s -> has_space s = false ->
   Profile.name p = {| Profile.familyName := ""; Profile.givenName := s |}) /\
  (forall g f rest,
      prop json "name" = VStr (g +:+ " " +:+ f +:+ rest) ->
      has_space g = false -> has_space f = false ->
      rest = "" \/ (exists r, rest = String " "%char r) ->
      Profile.name p = {| Profile.familyName := f; Profile.givenName := g |}).
Proof.
  intros H. destruct (normalize_inv _ _ _ H) as (_ & _ & Hstr & ->). simpl.
  split; [| split].
  - intros Hf. destruct (prop json "name"); try reflexivity. simpl in Hf.
    destruct (String.eqb s ""); [reflexivity | discriminate Hf].
  - intros s -> Hs. destruct (String.eqb_spec s "") as [-> | _]; [reflexivity |].
    unfold name_parts. rewrite (split_on_no_space s Hs). reflexivity.
  - intros g f rest -> Hg Hf Hrest.
    change (" " +:+ f +:+ rest) with (String " "%char (f +:+ rest)).
    rewrite append_space_not_empty. unfold name_parts.
    rewrite (split_on_space g _ Hg).
    destruct Hrest as [-> | [r ->]].
    + rewrite append_empty_r, (split_on_no_space f Hf). reflexivity.
    + rewrite (split_on_space f _ Hf). reflexivity.
Qed.

(** ** The request for the e-mails *)

Lemma userProfile_secondary (this : Strategy) (token : reqval) (body body2 : string)
    (profile : Profile.t) (error2 : option oauth_error) done :
  answers this (_profileURL this) token None body ->
  build_profile JSON_parse body = Ok profile ->
  scope_has_user_email (_scope this) = true ->
  answers this (_profileURL this +:+ "/emails") token error2 body2 ->
  userProfile JSON_parse loose_eq this token done
  = emails_callback JSON_parse loose_eq profile done error2 body2.
Proof.
  intros Hans Hp Hs Hans2.
  rewrite (userProfile_primary_ok _ _ _ _ Hans), Hp, Hs. apply Hans2.
Qed.

(** C7: with the [user:email] scope, when the request for the e-mails fails
    (the transport reports an error, or the body does not parse, or it parses
    to the empty list), [userProfile] calls [done] once, with no error and with
    the profile built from the first response, as it was. *)
Theorem C7_secondary_failure_degrades (this : Strategy) (token body body2 : string)
    (profile : Profile.t) (error2 : option oauth_error) :
  answers this (_profileURL this) token None body ->
  build_profile JSON_parse body = Ok profile ->
  scope_has_user_email (_scope this) = true ->
  answers this (_profileURL this +:+ "/emails") token error2 body2 ->
  error2 <> None \/ JSON_parse body2 = None \/ JSON_parse body2 = Some (VArr []) ->
  forall done,
    userProfile JSON_parse loose_eq this token done = done None (Some profile).
Proof.
  intros Hans Hp Hs Hans2 Hfail done.
  rewrite (userProfile_secondary _ _ _ _ _ _ _ Hans Hp Hs Hans2).
  unfold emails_callback. destruct error2 as [e2|]; [reflexivity |].
  destruct Hfail as [Hne | [Hbad | Hempty]].
  - contradiction.
  - unfold parse. rewrite Hbad. reflexivity.
  - unfold parse. rewrite Hempty. reflexivity.
Qed.

Lemma forEach_cons {S : Type} (r : jsval) (rs : list jsval)
    (f : S -> jsval -> result S) (s : S) :
  forEach (r :: rs) f s = bind (f s r) (forEach rs f).
Proof. reflexivity. Qed.

Lemma merge_email_new (emails : list Email.t) (r : jsval) :
  is_record r ->
  merge_email loose_eq None emails r = Ok (emails ++ [entry_of r])%list.
Proof.
  intros [Hn Hu]. unfold merge_email. rewrite !(get_prop r _ Hn Hu). reflexivity.
Qed.

Lemma merge_email_public (pub : Email.t) (emails : list Email.t) (r : jsval) :
  is_record r ->
  merge_email loose_eq (Some pub) emails r
  = if same_address pub r
    then set_flags_0 emails (prop r "primary") (prop r "verified")
    else Ok (emails ++ [entry_of r])%list.
Proof.
  intros [Hn Hu]. unfold merge_email, same_address. rewrite !(get_prop r _ Hn Hu). simpl.
  destruct (loose_eq (Email.value pub) (prop r "email")); reflexivity.
Qed.

Lemma forEach_no_public (records : list jsval) (acc : list Email.t) :
  Forall is_record records ->
  forEach records (merge_email loose_eq None) acc = Ok (acc ++ map entry_of records)%list.
Proof.
  intros Hrec. revert acc. induction Hrec as [|r records Hr _ IH]; intros acc.
  - simpl. now rewrite app_nil_r.
  - rewrite forEach_cons, (merge_email_new _ _ Hr). simpl.
    rewrite IH, <- app_assoc. reflexivity.
Qed.

Lemma forEach_public (pub e : Email.t) (others acc : list Email.t) (records : list jsval) :
  Forall is_record records ->
  forEach records (merge_email loose_eq (Some pub)) (e :: others ++ acc)%list
  = Ok (fold_flags pub records e
        :: others ++ acc
        ++ map entry_of (List.filter (fun r => negb (same_address pub r)) records))%list.
Proof.
  intros Hrec. revert e acc. induction Hrec as [|r records Hr _ IH]; intros e acc.
  - simpl. now rewrite app_nil_r.
  - rewrite forEach_cons, (merge_email_public _ _ _ Hr).
    unfold fold_flags. cbn [fold_left List.filter].
    destruct (same_address pub r); cbn [negb map set_flags_0 bind].
    + apply IH.
    + replace ((e :: others ++ acc) ++ [entry_of r])%list
        with (e :: others ++ (acc ++ [entry_of r]))%list
        by (simpl; now rewrite app_assoc).
      rewrite IH, <- app_assoc. reflexivity.
Qed.

Lemma merge_emails_merged (emails : emails_field) (records : list jsval) :
  Forall is_record records ->
  merge_emails loose_eq emails (VArr records) = Ok (merged (emails_or_empty emails) records).
Proof.
  intros Hrec. unfold merge_emails, merged. simpl.
  destruct (emails_or_empty emails) as [|pub others].
  - simpl. rewrite (forEach_no_public _ _ Hrec). unfold is_new. simpl.
    f_equal. f_equal. clear Hrec. induction records; simpl; [reflexivity | now f_equal].
  - simpl. pose proof (forEach_public pub pub others [] records Hrec) as H.
    rewrite app_nil_r in H. rewrite H. reflexivity.
Qed.

Lemma fold_flags_value (pub : Email.t) (records : list jsval) (e : Email.t) :
  Email.value (fold_flags pub records e) = Email.value e.
Proof.
  revert e. induction records as [|r records IH]; intros e; [reflexivity |].
  unfold fold_flags in *. simpl. rewrite IH. destruct (same_address pub r); reflexivity.
Qed.

Lemma merge_flags_values (emails : list Email.t) (records : list jsval) :
  map Email.value (merge_flags emails records) = map Email.value emails /\
  tl (merge_flags emails records) = tl emails.
Proof.
  destruct emails as [|pub others]; [split; reflexivity |]. simpl. split; [| reflexivity].
  f_equal. apply (fold_flags_value pub records pub).
Qed.

Lemma merge_flags_length (emails : list Email.t) (records : list jsval) :
  length (merge_flags emails records) = length emails.
Proof. destruct emails; reflexivity. Qed.

Lemma fold_flags_unmatched (pub : Email.t) (records : list jsval) (e : Email.t) :
  forallb (fun r => negb (same_address pub r)) records = true ->
  fold_flags pub records e = e.
Proof.
  revert e. induction records as [|r records IH]; intros e H; [reflexivity |].
  simpl in H. apply andb_true_iff in H as [Hr Hrs].
  unfold fold_flags in *. simpl.
  destruct (same_address pub r); [discriminate Hr | apply IH, Hrs].
Qed.

Lemma fold_flags_last_match (pub : Email.t) (before after : list jsval) (r : jsval) :
  same_address pub r = true ->
  forallb (fun x => negb (same_address pub x)) after = true ->
  fold_flags pub (before ++ r :: after) pub = with_flags pub r.
Proof.
  intros Hsame Hafter. unfold fold_flags. rewrite fold_left_app. simpl. rewrite Hsame.
  fold (fold_flags pub after
          (with_flags (fold_left (fun e x => if same_address pub x then with_flags e x else e)
                                 before pub) r)).
  rewrite (fold_flags_unmatched _ _ _ Hafter). unfold with_flags. f_equal.
  apply (fold_flags_value pub before pub).
Qed.

Lemma filter_is_new_public (pub : Email.t) (others : list Email.t) (records : list jsval) :
  List.filter (is_new (pub :: others)) records
  = List.filter (fun r => negb (same_address pub r)) records.
Proof. reflexivity. Qed.

Lemma filter_is_new_none (records : list jsval) :
  List.filter (is_new []) records = records.
Proof. induction records as [|r records IH]; simpl; [reflexivity | now rewrite IH]. Qed.

(** C8, amended: with the [user:email] scope, when the request for the e-mails
    is answered with a non-empty list of records, none of them [null],
    [userProfile] hands [done] the built profile with a new list of e-mails and
    nothing else changed. When there was a list with a public e-mail first, the
    new list is that first entry with its value kept, then the other entries
    there were, then one entry [{value, primary, verified}] for each record of
    another address, in the order returned; the first entry is untouched when
    no record has its address, and has the [primary] and [verified] of the
    last record of its address otherwise. When there was no list, the new
    list is one entry for each record. *)
Theorem C8_emails_merged (this : Strategy) (token body body2 : string)
    (profile : Profile.t) (records : list jsval) :
  answers this (_profileURL this) token None body ->
  build_profile JSON_parse body = Ok profile ->
  scope_has_user_email (_scope this) = true ->
  answers this (_profileURL this +:+ "/emails") token None body2 ->
  JSON_parse body2 = Some (VArr records) ->
  records <> [] ->
  Forall is_record records ->
  exists p',
    (forall done, userProfile JSON_parse loose_eq this token done = done None (Some p')) /\
    same_but_emails profile p' /\
    (forall pub others,
        Profile.emails profile = EmailList (pub :: others) ->
        exists first,
          Profile.emails p'
          = EmailList (first :: others
                       ++ map entry_of
                            (List.filter (fun r => negb (same_address pub r)) records)) /\
          Email.value first = Email.value pub /\
          (forallb (fun r => negb (same_address pub r)) records = true -> first = pub) /\
          (forall before r after,
              records = (before ++ r :: after)%list ->
              same_address pub r = true ->
              forallb (fun x => negb (same_address pub x)) after = true ->
              first = with_flags pub r)) /\
    ((Profile.emails profile = EmailList [] \/ exists v, Profile.emails profile = NoList v) ->
     Profile.emails p' = EmailList (map entry_of records)).
Proof.
  intros Hans Hp Hs Hans2 Hp2 Hne Hrec.
  exists (Profile.with_emails profile
            (merged (emails_or_empty (Profile.emails profile)) records)).
  split; [| split; [repeat split | split]].
  - intros done. rewrite (userProfile_secondary _ _ _ _ _ _ _ Hans Hp Hs Hans2).
    unfold emails_callback, parse. rewrite Hp2.
    destruct records as [|r records]; [contradiction |].
    cbn [get_length]. unfold truthy.
    destruct (Z.eqb_spec (Z.of_nat (length (r :: records))) 0) as [Hz | _];
      [simpl in Hz; lia |].
    cbn [negb]. rewrite (merge_emails_merged _ _ Hrec). reflexivity.
  - intros pub others Hemails. rewrite Hemails.
    exists (fold_flags pub records pub). split; [| split; [| split]].
    + simpl. unfold merged. rewrite filter_is_new_public. reflexivity.
    + apply fold_flags_value.
    + apply fold_flags_unmatched.
    + intros before r after -> Hsame Hafter. apply fold_flags_last_match; assumption.
  - intros [Hemails | [v Hemails]]; rewrite Hemails; simpl; unfold merged; simpl;
      now rewrite filter_is_new_none.
Qed.

(** ** The terminal signals *)

Lemma verified_paths (error user info : jsval) :
  (truthy error = true -> verified error user info = [Signal (Error (UserError error))]) /\
  (truthy error = false -> truthy user = false -> verified error user info = [Signal (Fail info)]) /\
  (truthy error = false -> truthy user = true ->
   verified error user info = [Signal (Success user info)]).
Proof.
  unfold verified. repeat split.
  - intros ->. reflexivity.
  - intros -> ->. reflexivity.
  - intros -> ->. reflexivity.
Qed.

Lemma verified_one_signal (error user info : jsval) : one_signal (verified error user info).
Proof.
  unfold verified, one_signal.
  destruct (truthy error); [eexists; reflexivity |].
  destruct (truthy user); eexists; reflexivity.
Qed.

Lemma on_profile_one_signal (this : Strategy) (req : Req.t) (token : reqval)
    (refreshToken : option reqval) (error : option js_error) (profile : option Profile.t) :
  verify_completes this ->
  one_signal (on_profile this req token refreshToken error profile).
Proof.
  intros Hv. unfold on_profile. destruct error as [e|]; [eexists; reflexivity |].
  destruct (_passReqToCallback this).
  - destruct (Hv (Some req) token refreshToken profile) as (e & u & i & ->).
    apply verified_one_signal.
  - destruct (Hv None token refreshToken profile) as (e & u & i & ->).
    apply verified_one_signal.
Qed.

(** With a transport that answers once and a scope that asks for no second
    request, [userProfile] calls [done] exactly once. *)
Lemma fetch_completes_without_scope (this : Strategy) (token : reqval) :
  transport_answers this ->
  scope_has_user_email (_scope this) = false ->
  fetch_completes this token.
Proof.
  intros Ht Hs. destruct (Ht (_profileURL this) token) as ([err|] & body & Hans).
  - unfold fetch_completes.
    destruct (let! errorJSON := parse_data JSON_parse (data err) in get errorJSON "message")
        as [message|e] eqn:Hm;
      eexists; eexists; intros done;
      rewrite (userProfile_primary_error _ _ _ _ _ Hans), Hm; reflexivity.
  - unfold fetch_completes.
    destruct (build_profile JSON_parse body) as [profile|e] eqn:Hp;
      eexists; eexists; intros done;
      rewrite (userProfile_primary_ok _ _ _ _ Hans), Hp; [rewrite Hs |]; reflexivity.
Qed.

(** The callback of the second request calls [done] exactly once on an
    answer it can handle. *)
Lemma emails_callback_completes (profile : Profile.t) (error2 : option oauth_error)
    (body2 : string) :
  (error2 = None -> forall json, JSON_parse body2 = Some json -> emails_usable json) ->
  exists p', forall done,
    emails_callback JSON_parse loose_eq profile done error2 body2 = done None (Some p').
Proof.
  intros Husable. unfold emails_callback.
  destruct error2 as [e2|]; [exists profile; reflexivity |].
  unfold parse. destruct (JSON_parse body2) as [json|] eqn:Hp2; [| exists profile; reflexivity].
  destruct (Husable eq_refl json eq_refl) as [(len & Hlen & Hfalsy) | (records & -> & Hrec)].
  - exists profile. intros done. rewrite Hlen, Hfalsy. reflexivity.
  - cbn [get_length]. rewrite (merge_emails_merged _ _ Hrec).
    destruct (negb (truthy (VNum (Z.of_nat (length records)))));
      eexists; intros done; reflexivity.
Qed.

(** With a transport that answers once and answers to the request for the
    e-mails that can be handled, [userProfile] calls [done] exactly once. *)
Lemma fetch_completes_usable (this : Strategy) (token : reqval) :
  transport_answers this ->
  emails_answers_usable this ->
  fetch_completes this token.
Proof.
  intros Ht Hu.
  destruct (scope_has_user_email (_scope this)) eqn:Hs;
    [| apply fetch_completes_without_scope; assumption].
  destruct (Ht (_profileURL this) token) as ([err|] & body & Hans).
  - unfold fetch_completes.
    destruct (let! errorJSON := parse_data JSON_parse (data err) in get errorJSON "message")
        as [message|e] eqn:Hm;
      eexists; eexists; intros done;
      rewrite (userProfile_primary_error _ _ _ _ _ Hans), Hm; reflexivity.
  - destruct (build_profile JSON_parse body) as [profile|e] eqn:Hp.
    + destruct (Ht (_profileURL this +:+ "/emails") token) as (error2 & body2 & Hans2).
      destruct (emails_callback_completes profile error2 body2) as [p' Hdone].
      * intros -> json Hjson. apply (Hu Hs token body2 json Hans2 Hjson).
      * exists None, (Some p'). intros done.
        rewrite (userProfile_secondary _ _ _ _ _ _ _ Hans Hp Hs Hans2). apply Hdone.
    + exists (Some e), None. intros done.
      rewrite (userProfile_primary_ok _ _ _ _ Hans), Hp. reflexivity.
Qed.

(** C10, amended: the completion callback takes exactly one of its three
    paths on each call (error when the error is truthy, else fail when the
    user is falsy, else success); a request with no access token reaches
    exactly [fail]; and one call of [authenticate] reaches exactly one
    terminal signal, and nothing else, when the transport calls back exactly
    once on every request, the application's callback calls its completion
    exactly once and, where the scope asks for the e-mails, every answer to
    that request is an error, or is not JSON, or parses to a value with a
    falsy [length] or to a list of records none of them [null]. *)
Theorem C10_one_terminal_signal :
  (forall error user info,
      one_signal (verified error user info) /\
      (truthy error = true -> verified error user info = [Signal (Error (UserError error))]) /\
      (truthy error = false -> truthy user = false ->
       verified error user info = [Signal (Fail info)]) /\
      (truthy error = false -> truthy user = true ->
       verified error user info = [Signal (Success user info)])) /\
  (forall (this : Strategy) (req : Req.t),
      truthy_req (find_token req (_accessTokenField this)) = false ->
      authenticate JSON_parse loose_eq this req
      = [Signal (Fail (missing_token_info (_accessTokenField this)))]) /\
  (forall (this : Strategy) (req : Req.t),
      transport_answers this ->
      emails_answers_usable this ->
      verify_completes this ->
      one_signal (authenticate JSON_parse loose_eq this req)).
Proof.
  split; [| split].
  - intros error user info. split; [apply verified_one_signal | apply verified_paths].
  - intros this req Hf. unfold authenticate.
    destruct (find_token req (_accessTokenField this)) as [token|]; [| reflexivity].
    rewrite Hf. reflexivity.
  - intros this req Ht Hu Hv. unfold authenticate, _loadUserProfile.
    destruct (find_token req (_accessTokenField this)) as [token|] eqn:Hf;
      [| eexists; reflexivity].
    destruct (truthy_req (Some token)); [| eexists; reflexivity].
    destruct (fetch_completes_usable this token Ht Hu) as (e & p & ->).
    apply on_profile_one_signal, Hv.
Qed.

End Properties.

(** * The properties on the requests of the tests *)


(** A field named [constructor] is lacking in no request with a body: the
    empty body answers with the member it inherits, which is truthy, and
    [authenticate] goes on to the profile with it. *)
Example inherited_field_is_found :
  ~ lacks req_inherited_field "constructor" /\
  authenticate json_parse same_type_eq
    (constructor inherited_field_options (transport respond_fixture) verify_accept)
    req_inherited_field
  = [Signal (Success (VObj [("id", VStr "1")]) (VObj [("info", VStr "foo")]))].
Proof.
  split; [| reflexivity].
  intros (Hb & _). vm_compute in Hb. discriminate Hb.
Qed.

Lemma C3_witness :
  (forall done,
      userProfile json_parse same_type_eq
        (constructor default_options (transport respond_not_json) verify_accept)
        "accessToken" done
      = done (Some SyntaxError) None) /\
  authenticate json_parse same_type_eq
    (constructor default_options (transport respond_not_json) verify_accept) req_body_only
  = [Signal (Error SyntaxError)].
Proof.
  destruct (C3_malformed_primary_body json_parse same_type_eq
              (constructor default_options (transport respond_not_json) verify_accept)
              "accessToken" "not a JSON") as [Hdone _].
  - intros callback. reflexivity.
  - vm_compute. reflexivity.
  - split; [exact Hdone |].
    apply (C3_malformed_primary_body json_parse same_type_eq
             (constructor default_options (transport respond_not_json) verify_accept)
             "access_token" "not a JSON").
    + intros callback. reflexivity.
    + vm_compute. reflexivity.
    + vm_compute. reflexivity.
    + discriminate.
Defined.

Lemma C9_witness :
  (forall done,
      userProfile json_parse same_type_eq
        (constructor default_options (transport (respond_error bad_credentials_text 401))
                     verify_accept) "accessToken" done
      = done (Some (InternalOAuthError (VStr "Bad credentials") (CauseStatus (Some 401)))) None) /\
  (forall done,
      userProfile json_parse same_type_eq
        (constructor default_options (transport (respond_error "oops" 500)) verify_accept)
        "accessToken" done
      = done (Some (fetch_failed {| data := Some "oops"; statusCode := Some 500 |})) None).
Proof.
  split.
  - apply (proj1 (C9_transport_error json_parse same_type_eq
             (constructor default_options (transport (respond_error bad_credentials_text 401))
                          verify_accept) "accessToken" ""
             {| data := Some bad_credentials_text; statusCode := Some 401 |}
             (fun callback => eq_refl))
           bad_credentials_text
           (VObj [("message", VStr "Bad credentials")])).
    + reflexivity.
    + vm_compute. reflexivity.
    + discriminate.
    + discriminate.
  - apply (proj1 (proj2 (C9_transport_error json_parse same_type_eq
             (constructor default_options (transport (respond_error "oops" 500)) verify_accept)
             "accessToken" "" {| data := Some "oops"; statusCode := Some 500 |}
             (fun callback => eq_refl)))).
    vm_compute. reflexivity.
Defined.

(** C9 fails as stated: the data [null] parses, and the error is the generic
    one. *)
Lemma C9_counterexample : ~ C9_as_stated json_parse same_type_eq.
Proof.
  intros H.
  destruct (H (constructor default_options (transport (respond_error "null" 401)) verify_accept)
              "accessToken" "" "null" {| data := Some "null"; statusCode := Some 401 |} VNull
              (fun callback => eq_refl) eq_refl eq_refl
              (fun e _ => match e with
                          | Some (InternalOAuthError _ (CauseStatus _)) => []
                          | _ => [Uncaught TypeError]
                          end)) as [message Hm].
  vm_compute in Hm. discriminate Hm.
Qed.

Lemma C4_witness :
  (exists p, build_profile json_parse fixture_text = Ok p /\
             Profile.emails p = EmailList [Email.Build (VStr "ghaiklor@gmail.com") None None]) /\
  (exists p, build_profile json_parse "{}" = Ok p /\ Profile.emails p = NoList VUndef).
Proof.
  split.
  - eexists. split; [vm_compute; reflexivity |].
    apply (proj1 (C4_emails_after_normalize fixture_text
                    (VObj [("id", VStr "1"); ("login", VStr "ghaiklor");
                           ("name", VStr "Eugene Obrezkov");
                           ("email", VStr "ghaiklor@gmail.com")]) _ eq_refl)).
    reflexivity.
  - eexists. split; [vm_compute; reflexivity |].
    apply (proj2 (proj2 (C4_emails_after_normalize "{}" (VObj []) _ eq_refl)) [] eq_refl eq_refl).
Defined.

(** C4 fails as stated: the response [{}] has no e-mail, and the profile built
    from it has no list of e-mails. *)
Lemma C4_counterexample : ~ C4_as_stated.
Proof.
  intros H. destruct (H "{}" (VObj []) _ eq_refl) as (e & rest & He & _).
  discriminate He.
Qed.

Lemma C5_witness :
  json_parse fixture_text = Some fixture_json /\
  (forall done,
      userProfile json_parse same_type_eq
        (constructor default_options (transport respond_fixture) verify_accept)
        "accessToken" done
      = done None (Some (fixture_profile fixture_text))).
Proof.
  split; [vm_compute; reflexivity |].
  apply (proj2 (C5_fixture_normalized json_parse same_type_eq)
           (constructor default_options (transport respond_fixture) verify_accept)
           "accessToken" fixture_text).
  - intros callback. reflexivity.
  - vm_compute. reflexivity.
  - reflexivity.
Defined.

Lemma C6_witness :
  (exists p, normalize "" (VObj []) = Ok p /\
             Profile.name p = {| Profile.familyName := ""; Profile.givenName := "" |}) /\
  (exists p, normalize "" (VObj [("name", VStr "ghaiklor")]) = Ok p /\
             Profile.name p = {| Profile.familyName := ""; Profile.givenName := "ghaiklor" |}) /\
  (exists p, normalize "" (VObj [("name", VStr "Eugene van Obrezkov")]) = Ok p /\
             Profile.name p = {| Profile.familyName := "van"; Profile.givenName := "Eugene" |}).
Proof.
  split; [| split]; eexists; (split; [reflexivity |]).
  - apply (proj1 (C6_name_split "" (VObj []) _ eq_refl)). reflexivity.
  - apply (proj1 (proj2 (C6_name_split "" (VObj [("name", VStr "ghaiklor")]) _ eq_refl))
             "ghaiklor"); reflexivity.
  - apply (proj2 (proj2 (C6_name_split "" (VObj [("name", VStr "Eugene van Obrezkov")])
                           _ eq_refl)) "Eugene" "van" " Obrezkov");
      [reflexivity | reflexivity | reflexivity | right; eexists; reflexivity].
Defined.

(** C6 fails as stated: of [Eugene van Obrezkov] the family name is [van], not
    all the text after the first space. *)
Lemma C6_counterexample : ~ C6_as_stated.
Proof.
  intros H.
  specialize (H "" (VObj [("name", VStr "Eugene van Obrezkov")]) _ "Eugene" "van Obrezkov"
                eq_refl eq_refl eq_refl).
  discriminate H.
Qed.

Lemma C7_witness :
  (forall done,
      userProfile json_parse same_type_eq
        (constructor email_scope_options
           (transport (respond_with_emails (inl {| data := None; statusCode := Some 500 |})))
           verify_accept) "accessToken" done
      = done None (Some (fixture_profile fixture_text))) /\
  (forall done,
      userProfile json_parse same_type_eq
        (constructor email_scope_options
           (transport (respond_with_emails (inr "not a JSON"))) verify_accept)
        "accessToken" done
      = done None (Some (fixture_profile fixture_text))).
Proof.
  split.
  - apply (C7_secondary_failure_degrades json_parse same_type_eq
             (constructor email_scope_options
                (transport (respond_with_emails (inl {| data := None; statusCode := Some 500 |})))
                verify_accept)
             "accessToken" fixture_text "" (fixture_profile fixture_text)
             (Some {| data := None; statusCode := Some 500 |})).
    + intros callback. reflexivity.
    + vm_compute. reflexivity.
    + reflexivity.
    + intros callback. reflexivity.
    + left. discriminate.
  - apply (C7_secondary_failure_degrades json_parse same_type_eq
             (constructor email_scope_options
                (transport (respond_with_emails (inr "not a JSON"))) verify_accept)
             "accessToken" fixture_text "not a JSON" (fixture_profile fixture_text) None).
    + intros callback. reflexivity.
    + vm_compute. reflexivity.
    + reflexivity.
    + intros callback. reflexivity.
    + right. left. vm_compute. reflexivity.
Defined.

(** The example of the specification: the record has the public e-mail's
    address, and the one entry takes its flags. *)
Lemma C8_witness :
  exists p',
    (forall done,
        userProfile json_parse same_type_eq
          (constructor email_scope_options
             (transport (respond_with_emails (inr same_email_text))) verify_accept)
          "accessToken" done
        = done None (Some p')) /\
    same_but_emails (fixture_profile fixture_text) p' /\
    Profile.emails p'
    = EmailList [Email.Build (VStr "ghaiklor@gmail.com")
                             (Some (VBool true)) (Some (VBool true))].
Proof.
  destruct (C8_emails_merged json_parse same_type_eq
              (constructor email_scope_options
                 (transport (respond_with_emails (inr same_email_text))) verify_accept)
              "accessToken" fixture_text same_email_text (fixture_profile fixture_text)
              [same_email_record]
              (fun callback => eq_refl) eq_refl eq_refl (fun callback => eq_refl) eq_refl
              ltac:(discriminate)
              ltac:(repeat constructor; discriminate))
    as (p' & Hdone & Hsame & Hpub & _).
  destruct (Hpub (Email.Build (VStr "ghaiklor@gmail.com") None None) [] eq_refl)
    as (first & Hemails & _ & _ & Hlast).
  exists p'. split; [exact Hdone | split; [exact Hsame |]].
  rewrite Hemails, (Hlast [] same_email_record [] eq_refl eq_refl eq_refl). reflexivity.
Defined.

(** C8 fails as stated: a list that holds [null] is a non-empty list, and on
    it the loop throws before [done] is called. *)
Lemma C8_counterexample : ~ C8_as_stated json_parse same_type_eq.
Proof.
  intros H.
  destruct (H (constructor email_scope_options
                 (transport (respond_with_emails (inr "[null]"))) verify_accept)
              "accessToken" fixture_text "[null]" (fixture_profile fixture_text) [VNull]
              (fun callback => eq_refl) eq_refl eq_refl (fun callback => eq_refl) eq_refl
              ltac:(discriminate))
    as (p' & emails & Hdone & _).
  specialize (Hdone (fun _ _ => [])). vm_compute in Hdone. discriminate Hdone.
Qed.

(** A record of another address is appended after the entry there was. *)
Example merged_appends :
  merged same_type_eq [Email.Build (VStr "ghaiklor@gmail.com") None None]
         [other_email_record; same_email_record]
  = [Email.Build (VStr "ghaiklor@gmail.com") (Some (VBool true)) (Some (VBool true));
     Email.Build (VStr "eugene@example.com") (Some (VBool false)) (Some (VBool true))].
Proof. reflexivity. Qed.

Lemma verify_accept_completes (this : Strategy) :
  _verify this = verify_accept -> verify_completes this.
Proof.
  intros Hv req token refreshToken profile. rewrite Hv.
  eexists; eexists; eexists. intros next. reflexivity.
Qed.

Lemma transport_answers_once (this : Strategy) respond :
  _oauth2_get this = transport respond -> transport_answers this.
Proof.
  intros Ht url token. unfold answers. rewrite Ht. unfold transport.
  destruct (respond url) as [e|text]; eexists; eexists; intros callback; reflexivity.
Qed.

Lemma transport_answer_inv (options : Options) respond verify (url : string)
    (token : reqval) (body : string) :
  answers (constructor options (transport respond) verify) url token None body ->
  respond url = inr body.
Proof.
  intros Hans. specialize (Hans (fun e b => [Signal (Fail (VObj [(b, match e with
                                                                     | Some _ => VNull
                                                                     | None => VUndef
                                                                     end)]))])).
  simpl in Hans. unfold transport in Hans.
  destruct (respond url) as [e|text]; [discriminate Hans |].
  injection Hans as ->. reflexivity.
Qed.

(** Two end-to-end runs: the token in the body, the scope asking for the
    e-mails, the transport answering with the profile of the tests and with
    the list of the specification's example, the application accepting; and
    no token at all. *)
Lemma C10_witness :
  one_signal (authenticate json_parse same_type_eq
                (constructor email_scope_options
                   (transport (respond_with_emails (inr same_email_text))) verify_accept)
                req_body_only) /\
  authenticate json_parse same_type_eq
    (constructor default_options (transport respond_fixture) verify_accept) req_empty
  = [Signal (Fail (missing_token_info "access_token"))].
Proof.
  split.
  - apply (proj2 (proj2 (C10_one_terminal_signal json_parse same_type_eq))).
    + apply (transport_answers_once _ (respond_with_emails (inr same_email_text))).
      reflexivity.
    + intros _ token body2 json Hans Hjson.
      apply transport_answer_inv in Hans. vm_compute in Hans. injection Hans as <-.
      vm_compute in Hjson. injection Hjson as <-.
      right. eexists. split; [reflexivity |].
      repeat constructor; discriminate.
    + apply verify_accept_completes. reflexivity.
  - apply (proj1 (proj2 (C10_one_terminal_signal json_parse same_type_eq))
             (constructor default_options (transport respond_fixture) verify_accept)
             req_empty).
    reflexivity.
Defined.

(** C10 fails as stated, and each of the three conditions is needed: an
    application callback that never calls its completion leaves
    [authenticate] with no terminal signal; so does a transport that never
    calls back; and with the scope asking for the e-mails, the answer [[null]]
    ends the call with an exception and no signal. *)
Lemma C10_counterexample :
  ~ C10_as_stated json_parse same_type_eq /\
  authenticate json_parse same_type_eq
    (constructor default_options (transport respond_fixture) verify_silent) req_body_only
  = [] /\
  authenticate json_parse same_type_eq
    (constructor default_options transport_silent verify_accept) req_body_only
  = [] /\
  authenticate json_parse same_type_eq
    (constructor email_scope_options
       (transport (respond_with_emails (inr "[null]"))) verify_accept) req_body_only
  = [Uncaught TypeError].
Proof.
  split; [| split; [| split]]; [| reflexivity | reflexivity | reflexivity].
  intros H.
  destruct (H (constructor default_options (transport respond_fixture) verify_silent)
              req_body_only) as [s Hs].
  vm_compute in Hs. discriminate Hs.
Qed.

(** ** The other revision and the headers *)

(** The other revision finds a token that is in the headers only, under the
    configured name ... *)
Lemma Part000_find_token_headers (req : Req.t) (h : gmap string string) (field v : string) :
  and_lookup (Req.body req) field = None ->
  and_lookup (Req.query req) field = None ->
  Req.headers req = Some h -> h !! field = Some v -> v <> "" ->
  Part000.find_token req field = Some (RStr v).
Proof.
  intros Hb Hq Hh Hv Hne. unfold Part000.find_token, member. rewrite Hb, Hq, Hh, Hv.
  rewrite (req_or_falsy None _ eq_refl). apply req_or_truthy, truthy_req_Some, Hne.
Qed.

(** X22: The other revision finds a token that is in the headers only under the
    lower-case form of the configured name. *)
Lemma Part000_find_token_lower_case (req : Req.t) (h : gmap string string) (field v : string) :
  and_lookup (Req.body req) field = None ->
  and_lookup (Req.query req) field = None ->
  Req.headers req = Some h -> member h field = None -> h !! toLowerCase field = Some v ->
  Part000.find_token req field = Some (RStr v).
Proof.
  intros Hb Hq Hh Hf Hv. unfold Part000.find_token. rewrite Hb, Hq, Hh, Hf.
  unfold member. rewrite Hv. reflexivity.
Qed.

(** ** An exception that leaves [userProfile] *)

(** With the [user:email] scope, an answer [null] to the request for the
    e-mails parses, and reading its [length] throws outside any [try]: [done]
    is not called. *)
Example emails_null_uncaught :
  forall done,
    userProfile json_parse same_type_eq
      (constructor email_scope_options (transport (respond_with_emails (inr "null")))
                   verify_accept) "accessToken" done
    = [Uncaught TypeError].
Proof. intros done. reflexivity. Qed.

(** * Further properties of the strategy *)

Section Extracting.
Variable JSON_parse : string -> option jsval.
Variable loose_eq : jsval -> jsval -> bool.

Lemma or_default_not_empty (o : option string) (d : string) :
  d <> "" -> or_default o d <> "".
Proof.
  intros Hd. unfold or_default, js_or. destruct o as [s|]; simpl; [| exact Hd].
  destruct (String.eqb_spec s ""); simpl; [exact Hd | assumption].
Qed.

Lemma or_default_given (s d : string) : s <> "" -> or_default (Some s) d = s.
Proof.
  intros Hs. unfold or_default, js_or. simpl.
  destruct (String.eqb_spec s ""); [contradiction | reflexivity].
Qed.

Lemma or_default_missing (o : option string) (d : string) :
  o = None \/ o = Some "" -> or_default o d = d.
Proof. intros [-> | ->]; reflexivity. Qed.

(** X1: The constructor takes each of the three names from the options when it
    is given there as a non-empty string; an option that is absent or the
    empty string gives way to the default, [access_token], [refresh_token]
    and [https://api.github.com/user]; so no configured name is ever empty
    (lines 40-42). *)
Theorem constructor_names_or_defaults :
  forall options oauth2_get verify,
    (forall s, s <> "" ->
       (accessTokenField options = Some s ->
        _accessTokenField (constructor options oauth2_get verify) = s) /\
       (refreshTokenField options = Some s ->
        _refreshTokenField (constructor options oauth2_get verify) = s) /\
       (profileURL options = Some s ->
        _profileURL (constructor options oauth2_get verify) = s)) /\
    ((accessTokenField options = None \/ accessTokenField options = Some "" ->
      _accessTokenField (constructor options oauth2_get verify) = "access_token") /\
     (refreshTokenField options = None \/ refreshTokenField options = Some "" ->
      _refreshTokenField (constructor options oauth2_get verify) = "refresh_token") /\
     (profileURL options = None \/ profileURL options = Some "" ->
      _profileURL (constructor options oauth2_get verify) = "https://api.github.com/user")) /\
    (_accessTokenField (constructor options oauth2_get verify) <> "" /\
     _refreshTokenField (constructor options oauth2_get verify) <> "" /\
     _profileURL (constructor options oauth2_get verify) <> "").
Proof.
  intros options oauth2_get verify. simpl. split; [| split].
  - intros s Hs. repeat split; intros ->; apply or_default_given, Hs.
  - repeat split; apply or_default_missing.
  - repeat split; apply or_default_not_empty; discriminate.
Qed.


(** X3: When the profile is fetched, the application's callback is called once,
    with the request first exactly when [passReqToCallback] is set, then the
    access token found, the refresh token found and the profile, and with
    [verified] as its completion (lines 60-75). *)
Theorem authenticate_calls_verify (this : Strategy) (req : Req.t) (token : string)
    (profile : Profile.t) :
  find_token req (_accessTokenField this) = Some (RStr token) -> token <> "" ->
  (forall done, userProfile JSON_parse loose_eq this token done = done None (Some profile)) ->
  authenticate JSON_parse loose_eq this req
  = _verify this (if _passReqToCallback this then Some req else None) token
            (find_token req (_refreshTokenField this)) (Some profile) verified.
Proof.
  intros Hf Hne Hdone.
  rewrite (authenticate_found JSON_parse loose_eq this req token Hf Hne), Hdone.
  unfold on_profile. destruct (_passReqToCallback this); reflexivity.
Qed.

(** X4: When the fetch of the profile reports an error, [authenticate] takes the
    [error] action with that error and nothing else: the application's
    callback is not called, whatever it would do (line 61). *)
Theorem authenticate_fetch_error (this : Strategy) (req : Req.t) (token : string)
    (e : js_error) (profile : option Profile.t) :
  find_token req (_accessTokenField this) = Some (RStr token) -> token <> "" ->
  (forall done, userProfile JSON_parse loose_eq this token done = done (Some e) profile) ->
  authenticate JSON_parse loose_eq this req = [Signal (Error e)].
Proof.
  intros Hf Hne Hdone.
  rewrite (authenticate_found JSON_parse loose_eq this req token Hf Hne), Hdone.
  reflexivity.
Qed.
End Extracting.

Lemma constructor_names_or_defaults_witness :
  _accessTokenField (constructor named_options (transport respond_fixture) verify_accept)
  = "token" /\
  _refreshTokenField (constructor named_options (transport respond_fixture) verify_accept)
  = "refresh_token" /\
  _profileURL (constructor named_options (transport respond_fixture) verify_accept)
  = "https://api.github.com/user".
Proof.
  destruct (constructor_names_or_defaults named_options (transport respond_fixture)
              verify_accept) as (Hgiven & (_ & Hrefresh & Hurl) & _).
  split; [| split].
  - apply (proj1 (Hgiven "token" ltac:(discriminate))). reflexivity.
  - apply Hrefresh. right. reflexivity.
  - apply Hurl. left. reflexivity.
Defined.


Lemma authenticate_calls_verify_witness :
  authenticate json_parse same_type_eq
    (constructor default_options (transport respond_fixture) verify_noisy) req_body_only
  = [Signal (Success (VBool true) VUndef); Signal (Fail VUndef)].
Proof.
  rewrite (authenticate_calls_verify json_parse same_type_eq
             (constructor default_options (transport respond_fixture) verify_noisy)
             req_body_only "access_token" (fixture_profile fixture_text)).
  - reflexivity.
  - vm_compute. reflexivity.
  - discriminate.
  - intros done. reflexivity.
Defined.

Lemma authenticate_fetch_error_witness :
  authenticate json_parse same_type_eq
    (constructor default_options (transport (respond_error "oops" 500)) verify_noisy)
    req_body_only
  = [Signal (Error (fetch_failed {| data := Some "oops"; statusCode := Some 500 |}))].
Proof.
  apply (authenticate_fetch_error json_parse same_type_eq
           (constructor default_options (transport (respond_error "oops" 500)) verify_noisy)
           req_body_only "access_token" _ None).
  - vm_compute. reflexivity.
  - discriminate.
  - intros done. reflexivity.
Defined.

Section Profiles.
Variable JSON_parse : string -> option jsval.
Variable loose_eq : jsval -> jsval -> bool.

Lemma split_on_pieces_no_space (s : string) :
  Forall (fun piece => has_space piece = false) (split_on " "%char s).
Proof.
  induction s as [|c s IH]; simpl.
  - constructor; [reflexivity | constructor].
  - destruct (Ascii.eqb c " "%char) eqn:Hc.
    + constructor; [reflexivity | exact IH].
    + destruct (split_on " "%char s) as [|cur more]; [repeat constructor; simpl; now rewrite Hc |].
      inversion IH as [|? ? Hcur Hmore]; subst.
      constructor; [simpl; now rewrite Hc, Hcur | exact Hmore].
Qed.

Lemma part_or_empty_no_space (parts : list string) (i : nat) :
  Forall (fun piece => has_space piece = false) parts ->
  has_space (part_or_empty parts i) = false.
Proof.
  intros H. unfold part_or_empty. revert i.
  induction H as [|x l Hx _ IH]; intros [|i]; simpl; auto.
Qed.

Lemma Forall_firstn_no_space (n : nat) (parts : list string) :
  Forall (fun piece => has_space piece = false) parts ->
  Forall (fun piece => has_space piece = false) (firstn n parts).
Proof.
  intros H. revert n. induction H as [|x l Hx _ IH]; intros [|n]; simpl; constructor; auto.
Qed.

Lemma normalize_throws_TypeError (body : string) (json : jsval) (e : js_error) :
  normalize body json = Throw e -> e = TypeError.
Proof.
  unfold normalize. destruct json; simpl; try (intros H; inversion H; reflexivity).
  destruct (lookup_prop "name" props) as [| |b|n|s|l|o]; simpl;
    try (intros H; inversion H; reflexivity).
  - destruct b; simpl; intros H; inversion H; reflexivity.
  - destruct (n =? 0); simpl; intros H; inversion H; reflexivity.
  - destruct (String.eqb s ""); simpl; intros H; inversion H.
Qed.

(** X5: A profile is built exactly from a parsed value that is not [null] and whose
    [name] is falsy or a string; from any other the object literal throws a
    [TypeError] (lines 96-111). *)
Theorem normalize_succeeds_iff :
  forall (body : string) (json : jsval),
    ((exists p, normalize body json = Ok p) <->
     json <> VNull /\ json <> VUndef /\
     (truthy (prop json "name") = false \/ exists s, prop json "name" = VStr s)) /\
    ((forall p, normalize body json <> Ok p) <-> normalize body json = Throw TypeError).
Proof.
  intros body json. split; split.
  - intros [p H]. destruct (normalize_inv _ _ _ H) as (Hn & Hu & Hs & _).
    split; [exact Hn | split; [exact Hu |]].
    destruct (truthy (prop json "name")); [right; apply Hs; reflexivity | left; reflexivity].
  - intros (Hn & Hu & Hname). unfold normalize. rewrite !(get_prop json _ Hn Hu). simpl.
    destruct Hname as [Hf | [s Hs]].
    + rewrite Hf. simpl. eexists; reflexivity.
    + rewrite Hs. simpl. destruct (String.eqb s ""); simpl; eexists; reflexivity.
  - intros Hno. destruct (normalize body json) as [p|e] eqn:H.
    + destruct (Hno p). reflexivity.
    + now rewrite (normalize_throws_TypeError _ _ _ H).
  - intros H p. rewrite H. discriminate.
Qed.

(** X6: When the body parses to a value no profile can be built from ([null], or a
    [name] that is truthy and no string), [userProfile] calls [done] once,
    with a [TypeError] and no profile (lines 96-114). *)
Theorem userProfile_unusable_json (this : Strategy) (token body : string) (json : jsval) :
  answers this (_profileURL this) token None body ->
  JSON_parse body = Some json ->
  json = VNull \/
  (truthy (prop json "name") = true /\ forall s, prop json "name" <> VStr s) ->
  forall done,
    userProfile JSON_parse loose_eq this token done = done (Some TypeError) None.
Proof.
  intros Hans Hp Hbad done.
  rewrite (userProfile_primary_ok JSON_parse loose_eq _ _ _ _ Hans).
  unfold build_profile, parse. rewrite Hp. simpl.
  destruct (normalize body json) as [p|e] eqn:Hn.
  - exfalso. destruct (normalize_inv _ _ _ Hn) as (Hnn & _ & Hs & _).
    destruct Hbad as [-> | [Ht Hns]]; [now apply Hnn |].
    destruct (Hs Ht) as [s Hs']. exact (Hns s Hs').
  - now rewrite (normalize_throws_TypeError _ _ _ Hn).
Qed.

(** X7: Neither part of a profile's name holds a space (lines 103-106). *)
Theorem profile_names_no_space (body : string) (json : jsval) (p : Profile.t) :
  normalize body json = Ok p ->
  has_space (Profile.givenName (Profile.name p)) = false /\
  has_space (Profile.familyName (Profile.name p)) = false.
Proof.
  intros H. destruct (normalize_inv _ _ _ H) as (_ & _ & _ & ->). simpl.
  destruct (prop json "name") as [| |b|n|s|l|o]; try (split; reflexivity).
  destruct (String.eqb s ""); [split; reflexivity |].
  unfold name_parts. simpl.
  split; apply part_or_empty_no_space, Forall_firstn_no_space, split_on_pieces_no_space.
Qed.

(** X8: A profile keeps the body it was built from and what the body parsed to;
    its provider is [github], its photos are empty, its id and username are
    the upstream [id] and [login] as they came, and its display name is a
    string (lines 96-111). *)
Theorem profile_provenance (body : string) (p : Profile.t) :
  build_profile JSON_parse body = Ok p ->
  Profile._raw p = body /\
  JSON_parse (Profile._raw p) = Some (Profile._json p) /\
  Profile.provider p = "github" /\
  Profile.photos p = [] /\
  Profile.id p = prop (Profile._json p) "id" /\
  Profile.username p = prop (Profile._json p) "login" /\
  (exists s, Profile.displayName p = VStr s).
Proof.
  unfold build_profile, parse. destruct (JSON_parse body) as [json|] eqn:Hp; simpl;
    [| discriminate].
  intros H. destruct (normalize_inv _ _ _ H) as (_ & _ & Hs & ->). simpl.
  repeat split; try reflexivity; try exact Hp.
  destruct (truthy (prop json "name")) eqn:Ht; [| eexists; reflexivity].
  destruct (Hs eq_refl) as [s ->]. eexists; reflexivity.
Qed.

(** X9: Of a name with exactly one space, the display name is the given name, a
    space and the family name (lines 102-106). *)
Theorem display_name_of_two_parts (body : string) (json : jsval) (p : Profile.t)
    (g f : string) :
  normalize body json = Ok p ->
  prop json "name" = VStr (g +:+ " " +:+ f) ->
  has_space g = false -> has_space f = false ->
  Profile.displayName p
  = VStr (Profile.givenName (Profile.name p) +:+ " "
          +:+ Profile.familyName (Profile.name p)).
Proof.
  intros H Hname Hg Hf. destruct (normalize_inv _ _ _ H) as (_ & _ & _ & ->). simpl.
  rewrite Hname. change (" " +:+ f) with (String " "%char f).
  simpl truthy. rewrite append_space_not_empty. simpl.
  unfold name_parts. rewrite (split_on_space g _ Hg), (split_on_no_space f Hf). reflexivity.
Qed.
End Profiles.

Lemma userProfile_unusable_json_witness :
  (forall done,
      userProfile json_parse same_type_eq
        (constructor default_options (transport (fun _ => inr "null")) verify_accept)
        "accessToken" done
      = done (Some TypeError) None) /\
  (forall done,
      userProfile json_parse same_type_eq
        (constructor default_options (transport (fun _ => inr numeric_name_text))
                     verify_accept) "accessToken" done
      = done (Some TypeError) None).
Proof.
  split.
  - apply (userProfile_unusable_json json_parse same_type_eq
             (constructor default_options (transport (fun _ => inr "null")) verify_accept)
             "accessToken" "null" VNull).
    + intros callback. reflexivity.
    + vm_compute. reflexivity.
    + left. reflexivity.
  - apply (userProfile_unusable_json json_parse same_type_eq
             (constructor default_options (transport (fun _ => inr numeric_name_text))
                          verify_accept)
             "accessToken" numeric_name_text (VObj [("name", VNum 42)])).
    + intros callback. reflexivity.
    + vm_compute. reflexivity.
    + right. split; [reflexivity | intros s; discriminate].
Defined.

Lemma profile_names_no_space_witness :
  exists p, normalize "" (VObj [("name", VStr "Eugene van Obrezkov")]) = Ok p /\
            has_space (Profile.givenName (Profile.name p)) = false /\
            has_space (Profile.familyName (Profile.name p)) = false.
Proof.
  eexists. split; [reflexivity |].
  apply (profile_names_no_space "" (VObj [("name", VStr "Eugene van Obrezkov")]) _ eq_refl).
Defined.

Lemma profile_provenance_witness :
  exists p, build_profile json_parse fixture_text = Ok p /\
            Profile._raw p = fixture_text /\
            json_parse (Profile._raw p) = Some (Profile._json p).
Proof.
  exists (fixture_profile fixture_text).
  destruct (profile_provenance json_parse fixture_text (fixture_profile fixture_text) eq_refl)
    as (Hraw & Hjson & _).
  split; [reflexivity | split; [exact Hraw | exact Hjson]].
Defined.

Lemma display_name_of_two_parts_witness :
  exists p, normalize fixture_text fixture_json = Ok p /\
            Profile.displayName p
            = VStr (Profile.givenName (Profile.name p) +:+ " "
                    +:+ Profile.familyName (Profile.name p)).
Proof.
  eexists. split; [reflexivity |].
  apply (display_name_of_two_parts fixture_text fixture_json _ "Eugene" "Obrezkov" eq_refl);
    reflexivity.
Defined.

Section Scopes.

Lemma prefix_append (sub post : string) : String.prefix sub (sub +:+ post) = true.
Proof.
  induction sub as [|c sub IH]; [destruct post; reflexivity |].
  change (String c sub +:+ post) with (String c (sub +:+ post)). simpl.
  destruct (ascii_dec c c) as [_ | Hne]; [exact IH | now destruct Hne].
Qed.

Lemma index_cons (s1 s2 : string) (b : ascii) :
  String.index 0 s1 (String b s2)
  = if String.prefix s1 (String b s2) then Some 0%nat
    else match String.index 0 s1 s2 with
         | Some n => Some (S n)
         | None => None
         end.
Proof. reflexivity. Qed.

Lemma index_of_occurrence (c : ascii) (sub pre post : string) :
  is_Some (String.index 0 (String c sub) (pre +:+ String c sub +:+ post)).
Proof.
  induction pre as [|d pre IH].
  - pose proof (prefix_append (String c sub) post) as Hp.
    change ("" +:+ String c sub +:+ post) with (String c (sub +:+ post)).
    change (String c sub +:+ post) with (String c (sub +:+ post)) in Hp.
    rewrite index_cons, Hp. eexists; reflexivity.
  - change (String d pre +:+ String c sub +:+ post)
      with (String d (pre +:+ String c sub +:+ post)).
    rewrite index_cons.
    destruct (String.prefix (String c sub) (String d (pre +:+ String c sub +:+ post)));
      [eexists; reflexivity |].
    destruct IH as [n ->]. eexists; reflexivity.
Qed.

Lemma substring_0_prefix (n : nat) (s t : string) :
  String.substring 0 n s = t -> String.length t = n -> exists post, s = t +:+ post.
Proof.
  revert s t. induction n as [|n IH]; intros s t Hsub Hlen.
  - destruct t; [| discriminate Hlen]. exists s. reflexivity.
  - destruct s as [|c s]; simpl in Hsub; subst t; [discriminate Hlen |].
    simpl in Hlen. destruct (IH s (String.substring 0 n s) eq_refl) as [post Hpost].
    + lia.
    + exists post. change (String c (String.substring 0 n s) +:+ post)
        with (String c (String.substring 0 n s +:+ post)). now rewrite <- Hpost.
Qed.

Lemma substring_occurrence (m n : nat) (s t : string) :
  String.substring m n s = t -> String.length t = n -> t <> "" -> contains t s.
Proof.
  revert s. induction m as [|m IH]; intros s Hsub Hlen Hne.
  - destruct (substring_0_prefix n s t Hsub Hlen) as [post ->]. exists "", post. reflexivity.
  - destruct s as [|c s].
    + destruct n; simpl in Hsub; subst t; now destruct Hne.
    + simpl in Hsub. destruct (IH s Hsub Hlen Hne) as (pre & post & ->).
      exists (String c pre), post. reflexivity.
Qed.

(** X10: A scope given as a string asks for the second request exactly when
    [user:email] occurs somewhere in it, also inside a longer word such as
    [user:emails] (line 116). *)
Theorem scope_string_substring :
  forall s : string,
    scope_has_user_email (Some (ScopeString s)) = true <-> contains "user:email" s.
Proof.
  intros s. unfold scope_has_user_email. split.
  - intros H. apply andb_true_iff in H as [_ H]. apply bool_decide_eq_true in H.
    destruct H as [m Hm]. apply String.index_correct1 in Hm.
    apply (substring_occurrence m _ s "user:email" Hm eq_refl). discriminate.
  - intros (pre & post & ->). apply andb_true_iff. split.
    + destruct pre; reflexivity.
    + apply bool_decide_eq_true. apply index_of_occurrence.
Qed.

(** X11: A scope given as a list asks for the second request exactly when
    [user:email] is one of its elements; no scope asks for none (line 116). *)
Theorem scope_array_member :
  forall l : list string,
    (scope_has_user_email (Some (ScopeArray l)) = true <-> In "user:email" l) /\
    scope_has_user_email None = false.
Proof.
  intros l. split; [| reflexivity]. unfold scope_has_user_email. rewrite existsb_exists. split.
  - intros (x & Hx & Heq). apply String.eqb_eq in Heq. now subst x.
  - intros H. exists "user:email". split; [exact H | apply String.eqb_refl].
Qed.
End Scopes.

Lemma scope_string_substring_witness :
  scope_has_user_email (Some (ScopeString "read:org user:emails")) = true /\
  scope_has_user_email (Some (ScopeArray ["read:org"; "user:emails"])) = false.
Proof.
  split; [| reflexivity].
  apply (proj2 (scope_string_substring "read:org user:emails")).
  exists "read:org ", "s". reflexivity.
Defined.

Section Enrichment.
Variable JSON_parse : string -> option jsval.
Variable loose_eq : jsval -> jsval -> bool.

Lemma get_throws_TypeError (v : jsval) (k : string) (e : js_error) :
  get v k = Throw e -> e = TypeError.
Proof. destruct v; simpl; intros H; inversion H; reflexivity. Qed.

Lemma get_length_throws_TypeError (v : jsval) (e : js_error) :
  get_length v = Throw e -> e = TypeError.
Proof. destruct v; simpl; intros H; inversion H; reflexivity. Qed.

Lemma merge_email_throws_TypeError (pub : option Email.t) (acc : list Email.t)
    (r : jsval) (e : js_error) :
  merge_email loose_eq pub acc r = Throw e -> e = TypeError.
Proof.
  unfold merge_email.
  destruct r; simpl; try (destruct pub; simpl; intros H; inversion H; reflexivity);
    destruct pub as [p|]; simpl; try (intros H; discriminate H);
    match goal with
    | |- (if ?c then _ else _) = _ -> _ =>
        destruct c; [destruct acc; simpl |]; intros H; inversion H; reflexivity
    end.
Qed.

Lemma merge_email_null (pub : option Email.t) (acc : list Email.t) :
  merge_email loose_eq pub acc VNull = Throw TypeError.
Proof. destruct pub; reflexivity. Qed.

Lemma forEach_throws_TypeError (pub : option Email.t) (rs : list jsval)
    (acc : list Email.t) (e : js_error) :
  forEach rs (merge_email loose_eq pub) acc = Throw e -> e = TypeError.
Proof.
  revert acc. induction rs as [|r rs IH]; intros acc; [discriminate |].
  rewrite forEach_cons.
  destruct (merge_email loose_eq pub acc r) as [acc'|e'] eqn:Hm; simpl.
  - apply IH.
  - intros H. inversion H; subst. exact (merge_email_throws_TypeError _ _ _ _ Hm).
Qed.

Lemma forEach_null (pub : option Email.t) (rs : list jsval) (acc : list Email.t) :
  In VNull rs -> forEach rs (merge_email loose_eq pub) acc = Throw TypeError.
Proof.
  revert acc. induction rs as [|r rs IH]; intros acc Hin; [destruct Hin |].
  rewrite forEach_cons.
  destruct (merge_email loose_eq pub acc r) as [acc'|e'] eqn:Hm; simpl.
  - destruct Hin as [-> | Hin]; [rewrite merge_email_null in Hm; discriminate Hm |].
    apply IH, Hin.
  - now rewrite (merge_email_throws_TypeError _ _ _ _ Hm).
Qed.

Lemma merge_emails_throws_TypeError (emails : emails_field) (json : jsval) (e : js_error) :
  merge_emails loose_eq emails json = Throw e -> e = TypeError.
Proof.
  unfold merge_emails. destruct json; simpl; try (intros H; inversion H; reflexivity).
  apply forEach_throws_TypeError.
Qed.

(** X12: With the [user:email] scope, once the profile is built the answer to the
    second request cannot turn into an error for [done], and it changes no
    field but [emails]: [userProfile] hands [done] a profile equal to the built
    one in every other field, or throws a [TypeError] without calling [done]
    (lines 116-142). *)
Theorem enrichment_keeps_other_fields (this : Strategy) (token body body2 : string)
    (profile : Profile.t) (error2 : option oauth_error) :
  answers this (_profileURL this) token None body ->
  build_profile JSON_parse body = Ok profile ->
  scope_has_user_email (_scope this) = true ->
  answers this (_profileURL this +:+ "/emails") token error2 body2 ->
  (forall done, userProfile JSON_parse loose_eq this token done = [Uncaught TypeError]) \/
  (exists p',
      (forall done, userProfile JSON_parse loose_eq this token done = done None (Some p')) /\
      same_but_emails profile p').
Proof.
  intros Hans Hp Hs Hans2.
  assert (Hsame : same_but_emails profile profile) by (repeat split).
  assert (Hcb : forall done,
             userProfile JSON_parse loose_eq this token done
             = emails_callback JSON_parse loose_eq profile done error2 body2).
  { intros done. apply (userProfile_secondary JSON_parse loose_eq _ _ _ _ _ _ _ Hans Hp Hs Hans2). }
  unfold emails_callback in Hcb.
  destruct error2 as [e2|]; [right; exists profile; split; [exact Hcb | exact Hsame] |].
  destruct (parse JSON_parse body2) as [json|e];
    [| right; exists profile; split; [exact Hcb | exact Hsame]].
  destruct (get_length json) as [len|e] eqn:Hlen.
  - destruct (truthy len); simpl in Hcb;
      [| right; exists profile; split; [exact Hcb | exact Hsame]].
    destruct (merge_emails loose_eq (Profile.emails profile) json) as [emails|e] eqn:Hm.
    + right. exists (Profile.with_emails profile emails). split; [exact Hcb |].
      repeat split.
    + left. rewrite (merge_emails_throws_TypeError _ _ _ Hm) in Hcb. exact Hcb.
  - left. rewrite (get_length_throws_TypeError _ _ Hlen) in Hcb. exact Hcb.
Qed.

(** X13: With the [user:email] scope, an answer to the second request that parses
    to [null], to a non-empty string, or to a list with a [null] in it makes
    the callback throw a [TypeError] outside any [try]: [done] is never called
    (lines 127-139). *)
Theorem emails_bad_shape_uncaught (this : Strategy) (token body body2 : string)
    (profile : Profile.t) (json : jsval) :
  answers this (_profileURL this) token None body ->
  build_profile JSON_parse body = Ok profile ->
  scope_has_user_email (_scope this) = true ->
  answers this (_profileURL this +:+ "/emails") token None body2 ->
  JSON_parse body2 = Some json ->
  json = VNull \/ (exists s, json = VStr s /\ s <> "") \/
  (exists l, json = VArr l /\ In VNull l) ->
  forall done, userProfile JSON_parse loose_eq this token done = [Uncaught TypeError].
Proof.
  intros Hans Hp Hs Hans2 Hp2 Hshape done.
  rewrite (userProfile_secondary JSON_parse loose_eq _ _ _ _ _ _ _ Hans Hp Hs Hans2).
  unfold emails_callback, parse. rewrite Hp2.
  destruct Hshape as [-> | [(s & -> & Hne) | (l & -> & Hin)]].
  - reflexivity.
  - cbn [get_length]. unfold truthy.
    destruct s as [|c s]; [now destruct Hne |]. reflexivity.
  - cbn [get_length]. unfold truthy.
    destruct l as [|r l]; [destruct Hin |].
    destruct (Z.eqb_spec (Z.of_nat (length (r :: l))) 0) as [Hz | _]; [simpl in Hz; lia |].
    cbn [negb]. unfold merge_emails. cbn [elements_of bind].
    rewrite (forEach_null _ _ _ Hin). reflexivity.
Qed.

(** X14: With the [user:email] scope, an answer to the second request that parses
    to a number, a boolean, the empty string, or an object whose [length] is
    absent or falsy leaves the profile as built: [done] gets it with no error
    (line 127). *)
Theorem emails_no_length_degrades (this : Strategy) (token body body2 : string)
    (profile : Profile.t) (json : jsval) :
  answers this (_profileURL this) token None body ->
  build_profile JSON_parse body = Ok profile ->
  scope_has_user_email (_scope this) = true ->
  answers this (_profileURL this +:+ "/emails") token None body2 ->
  JSON_parse body2 = Some json ->
  (exists n, json = VNum n) \/ (exists b, json = VBool b) \/ json = VStr "" \/
  (exists props, json = VObj props /\ truthy (lookup_prop "length" props) = false) ->
  forall done, userProfile JSON_parse loose_eq this token done = done None (Some profile).
Proof.
  intros Hans Hp Hs Hans2 Hp2 Hshape done.
  rewrite (userProfile_secondary JSON_parse loose_eq _ _ _ _ _ _ _ Hans Hp Hs Hans2).
  unfold emails_callback, parse. rewrite Hp2.
  destruct Hshape as [[n ->] | [[b ->] | [-> | (props & -> & Hl)]]]; try reflexivity.
  cbn [get_length]. rewrite Hl. reflexivity.
Qed.




Lemma merged_not_empty (emails : list Email.t) (records : list jsval) :
  records <> [] ->
  merged loose_eq emails records <> [] /\
  (length (merged loose_eq emails records) <= length emails + length records)%nat.
Proof.
  intros Hne. unfold merged. split.
  - destruct emails as [|pub others]; [| discriminate].
    destruct records as [|r rs]; [contradiction | discriminate].
  - rewrite length_app, merge_flags_length, length_map.
    apply Nat.add_le_mono_l. apply List.filter_length_le.
Qed.

(** X17: With the [user:email] scope, after an answer with a non-empty list of
    records, none of them [null], the list of e-mails of the profile handed to
    [done] has at least one entry; when the built profile had a list, the
    values of its entries come first, in their order, followed by at most one
    new entry for each record; when it had none, the new list has exactly one
    entry for each record (lines 127-141). *)
Theorem enriched_emails_not_empty (this : Strategy) (token body body2 : string)
    (profile : Profile.t) (records : list jsval) :
  answers this (_profileURL this) token None body ->
  build_profile JSON_parse body = Ok profile ->
  scope_has_user_email (_scope this) = true ->
  answers this (_profileURL this +:+ "/emails") token None body2 ->
  JSON_parse body2 = Some (VArr records) ->
  records <> [] ->
  Forall is_record records ->
  exists p' e rest,
    (forall done, userProfile JSON_parse loose_eq this token done = done None (Some p')) /\
    Profile.emails p' = EmailList (e :: rest) /\
    (forall l, Profile.emails profile = EmailList l ->
       exists added,
         map Email.value (e :: rest) = (map Email.value l ++ added)%list /\
         (length added <= length records)%nat) /\
    (forall v, Profile.emails profile = NoList v ->
       length (e :: rest) = length records).
Proof.
  intros Hans Hp Hs Hans2 Hp2 Hne Hrec.
  destruct (merged_not_empty (emails_or_empty (Profile.emails profile)) records Hne)
    as [Hnil _].
  destruct (merged loose_eq (emails_or_empty (Profile.emails profile)) records)
    as [|e rest] eqn:Hm; [now destruct Hnil |].
  exists (Profile.with_emails profile (e :: rest)), e, rest.
  split; [| split; [reflexivity | split]].
  - intros done.
    rewrite (userProfile_secondary JSON_parse loose_eq _ _ _ _ _ _ _ Hans Hp Hs Hans2).
    unfold emails_callback, parse. rewrite Hp2.
    destruct records as [|r records]; [contradiction |].
    cbn [get_length]. unfold truthy.
    destruct (Z.eqb_spec (Z.of_nat (length (r :: records))) 0) as [Hz | _];
      [simpl in Hz; lia |].
    cbn [negb]. rewrite (merge_emails_merged loose_eq _ _ Hrec), Hm. reflexivity.
  - intros l Hl. rewrite Hl in Hm. simpl in Hm. rewrite <- Hm. unfold merged.
    exists (map Email.value (map entry_of (List.filter (is_new loose_eq l) records))).
    split.
    + rewrite map_app, (proj1 (merge_flags_values loose_eq l records)). reflexivity.
    + rewrite !length_map. apply List.filter_length_le.
  - intros v Hv. rewrite Hv in Hm. simpl in Hm. rewrite <- Hm. unfold merged. simpl.
    rewrite length_map. f_equal. clear. induction records as [|r rs IH]; simpl;
      [reflexivity | now rewrite IH].
Qed.
End Enrichment.

Section Revisions.
Variable JSON_parse : string -> option jsval.
Variable loose_eq : jsval -> jsval -> bool.

(** X18: The other revision finds every token [src/index.js] finds, and the same
    one; it turns to the headers only when body and query give no non-empty
    value (lines 53-54 of the other revision, 55-56 of [src/index.js]). *)
Theorem Part000_find_token_extends (req : Req.t) (field : string) :
  (truthy_req (find_token req field) = true ->
   Part000.find_token req field = find_token req field) /\
  (truthy_req (find_token req field) = false ->
   Part000.find_token req field
   = match Req.headers req with
     | Some h => req_or (member h field) (member h (toLowerCase field))
     | None => None
     end) /\
  (Req.headers req = None -> truthy_req (find_token req field) = false ->
   truthy_req (Part000.find_token req field) = false).
Proof.
  unfold Part000.find_token. fold (find_token req field). split; [| split].
  - intros Ht. apply req_or_truthy, Ht.
  - intros Hf. apply req_or_falsy, Hf.
  - intros Hh Hf. rewrite Hh, (req_or_falsy _ _ Hf). reflexivity.
Qed.

Lemma Part000_normalize_relation (body : string) (json : jsval) :
  Part000.normalize body json
  = bind (normalize body json)
      (fun p => Ok (Profile.with_emails p
                      [Email.Build (if truthy (prop json "email")
                                    then prop json "email" else VStr "") None None])).
Proof.
  unfold Part000.normalize, normalize.
  destruct json; simpl; try reflexivity.
  destruct (truthy (lookup_prop "name" props)); simpl; [| reflexivity].
  destruct (split_space_2 (lookup_prop "name" props)); reflexivity.
Qed.

Lemma Part000_normalize_same (body : string) (json : jsval) :
  truthy (prop json "email") = true ->
  Part000.normalize body json = normalize body json.
Proof.
  intros Ht. rewrite Part000_normalize_relation.
  destruct (normalize body json) as [p|e] eqn:Hn; [| reflexivity].
  destruct (normalize_inv _ _ _ Hn) as (_ & _ & _ & ->). simpl. rewrite Ht. reflexivity.
Qed.

(** X19: The two revisions build the same profile but for [emails], where the
    other revision always has the one entry, with the empty string for a
    missing e-mail; they throw on the same values. With a truthy e-mail the
    profiles are equal (lines 98-111, and 94-107 of the other revision). *)
Theorem revisions_build_same_profile :
  forall (body : string) (json : jsval),
    Part000.normalize body json
    = bind (normalize body json)
        (fun p => Ok (Profile.with_emails p
                        [Email.Build (if truthy (prop json "email")
                                      then prop json "email" else VStr "") None None])) /\
    (truthy (prop json "email") = true ->
     Part000.normalize body json = normalize body json).
Proof.
  intros body json. split; [apply Part000_normalize_relation | apply Part000_normalize_same].
Qed.

End Revisions.

(** ** The further properties on requests and answers *)

Lemma enrichment_keeps_other_fields_witness :
  (forall done,
      userProfile json_parse same_type_eq
        (constructor email_scope_options
           (transport (respond_with_emails (inr same_email_text))) verify_accept)
        "accessToken" done
      = [Uncaught TypeError]) \/
  (exists p',
      (forall done,
          userProfile json_parse same_type_eq
            (constructor email_scope_options
               (transport (respond_with_emails (inr same_email_text))) verify_accept)
            "accessToken" done
          = done None (Some p')) /\
      same_but_emails (fixture_profile fixture_text) p').
Proof.
  apply (enrichment_keeps_other_fields json_parse same_type_eq
           (constructor email_scope_options
              (transport (respond_with_emails (inr same_email_text))) verify_accept)
           "accessToken" fixture_text same_email_text (fixture_profile fixture_text) None).
  - intros callback. reflexivity.
  - vm_compute. reflexivity.
  - reflexivity.
  - intros callback. reflexivity.
Defined.

Lemma emails_bad_shape_uncaught_witness :
  (forall done,
      userProfile json_parse same_type_eq
        (constructor email_scope_options
           (transport (respond_with_emails (inr "[null]"))) verify_accept)
        "accessToken" done
      = [Uncaught TypeError]) /\
  authenticate json_parse same_type_eq
    (constructor email_scope_options
       (transport (respond_with_emails (inr "[null]"))) verify_accept) req_body_only
  = [Uncaught TypeError].
Proof.
  split; [| reflexivity].
  apply (emails_bad_shape_uncaught json_parse same_type_eq
           (constructor email_scope_options
              (transport (respond_with_emails (inr "[null]"))) verify_accept)
           "accessToken" fixture_text "[null]" (fixture_profile fixture_text) (VArr [VNull])).
  - intros callback. reflexivity.
  - vm_compute. reflexivity.
  - reflexivity.
  - intros callback. reflexivity.
  - vm_compute. reflexivity.
  - right. right. exists [VNull]. split; [reflexivity | left; reflexivity].
Defined.

Lemma emails_no_length_degrades_witness :
  (forall done,
      userProfile json_parse same_type_eq
        (constructor email_scope_options
           (transport (respond_with_emails (inr "{}"))) verify_accept)
        "accessToken" done
      = done None (Some (fixture_profile fixture_text))) /\
  json_parse "{}" = Some (VObj []).
Proof.
  split; [| vm_compute; reflexivity].
  apply (emails_no_length_degrades json_parse same_type_eq
           (constructor email_scope_options
              (transport (respond_with_emails (inr "{}"))) verify_accept)
           "accessToken" fixture_text "{}" (fixture_profile fixture_text) (VObj [])).
  - intros callback. reflexivity.
  - vm_compute. reflexivity.
  - reflexivity.
  - intros callback. reflexivity.
  - vm_compute. reflexivity.
  - right. right. right. exists []. split; reflexivity.
Defined.



Lemma enriched_emails_not_empty_witness :
  exists p' e,
    (forall done,
        userProfile json_parse same_type_eq
          (constructor email_scope_options (transport respond_bare_with_emails) verify_accept)
          "accessToken" done
        = done None (Some p')) /\
    Profile.emails p' = EmailList [e].
Proof.
  destruct (enriched_emails_not_empty json_parse same_type_eq
              (constructor email_scope_options (transport respond_bare_with_emails)
                           verify_accept)
              "accessToken" "{}" same_email_text bare_profile [same_email_record]
              (fun callback => eq_refl) eq_refl eq_refl (fun callback => eq_refl) eq_refl
              ltac:(discriminate)
              ltac:(repeat constructor; discriminate))
    as (p' & e & rest & Hdone & Hemails & _ & Hnone).
  exists p', e. split; [exact Hdone |].
  specialize (Hnone VUndef eq_refl). destruct rest; [exact Hemails | discriminate Hnone].
Defined.

Lemma Part000_find_token_extends_witness :
  Part000.find_token req_body_only "access_token" = find_token req_body_only "access_token" /\
  Part000.find_token req_headers_only "access_token" = Some (RStr "access_token") /\
  truthy_req (Part000.find_token req_empty "access_token") = false.
Proof.
  destruct (Part000_find_token_extends req_body_only "access_token") as (Hsame & _ & _).
  destruct (Part000_find_token_extends req_headers_only "access_token") as (_ & Hhead & _).
  destruct (Part000_find_token_extends req_empty "access_token") as (_ & _ & Hnone).
  split; [apply Hsame; vm_compute; reflexivity | split].
  - rewrite Hhead; vm_compute; reflexivity.
  - apply Hnone; reflexivity.
Defined.

Lemma revisions_build_same_profile_witness :
  Part000.normalize fixture_text fixture_json = normalize fixture_text fixture_json /\
  Part000.normalize "{}" (VObj [])
  = bind (normalize "{}" (VObj []))
      (fun p => Ok (Profile.with_emails p [Email.Build (VStr "") None None])).
Proof.
  split.
  - apply (proj2 (revisions_build_same_profile fixture_text fixture_json)). reflexivity.
  - apply (proj1 (revisions_build_same_profile "{}" (VObj []))).
Defined.

Lemma Part000_emails_after_normalize_witness :
  exists p, Part000.normalize "{}" (VObj []) = Ok p /\
            Profile.emails p = EmailList [Email.Build (VStr "") None None].
Proof.
  eexists. split; [reflexivity |].
  apply (Part000_emails_after_normalize "{}" (VObj []) _ eq_refl).
Defined.

(** A request whose header is named in lower case, for a field configured in
    upper case. *)
Lemma Part000_find_token_lower_case_witness :
  Part000.find_token
    {| Req.body := None; Req.query := None;
       Req.headers := Some (<["access_token" := "tok"]> ∅) |}
    "Access_Token"
  = Some (RStr "tok").
Proof.
  apply (Part000_find_token_lower_case
           {| Req.body := None; Req.query := None;
              Req.headers := Some (<["access_token" := "tok"]> ∅) |}
           (<["access_token" := "tok"]> ∅) "Access_Token" "tok");
    try reflexivity; vm_compute; reflexivity.
Defined.
